(** * skyhy: interval resolution, seeking and synchronisation engine of app.js

    A shallow embedding of the time-interval logic of [app.js] (the flight
    and video viewer built on the Cesium library) and the proofs of the
    properties its specification states about it.

    Conventions of the embedding:
    - a JavaScript number is a rational [Q]: arithmetic is exact, so rounding
      of IEEE doubles is not represented;
    - a [Cesium.JulianDate] (a day number and the seconds of that day) is
      the total number of seconds it denotes, its [dayNumber] is recovered
      by [JulianDate.dayNumber];
    - JavaScript objects that are shared and mutated ([TimeInterval]s,
      pilots, flights, videos) carry an identity: an [oid] for intervals and
      a heap address for the others;
    - [console] output, warnings and failed assertions are appended to a
      log that is part of the state. *)

From Stdlib Require Import ZArith QArith Qround Qabs Lqa Lia List Ascii String Bool.
From stdpp Require Import base list gmap strings.

Local Open Scope Q_scope.

(** ** JavaScript numbers *)

(** [x < y] on numbers, as a boolean. *)
Definition Qltb (x y : Q) : bool := negb (Qle_bool y x).

(** ** The Cesium library: dates

    Cesium is an external library of the application.  Its dates, intervals
    and interval collections are modelled after the library's documented
    behaviour, restricted to what [app.js] uses. *)

Module JulianDate.

(** Total seconds of the date (day number times 86400 plus seconds of day). *)
Definition t : Type := Q.

Definition SECONDS_PER_DAY : Q := 86400.

(** The [dayNumber] field of the date: whole days. *)
Definition dayNumber (d : t) : Z := Qfloor (d / SECONDS_PER_DAY).

(** [JulianDate.secondsDifference(left, right)]: [left - right] in seconds. *)
Definition secondsDifference (left right : t) : Q := left - right.

Definition lessThan (left right : t) : bool := Qltb left right.
Definition greaterThan (left right : t) : bool := Qltb right left.
Definition equals (left right : t) : bool := Qeq_bool left right.

(** [JulianDate.equalsEpsilon(left, right, epsilon)].  The third argument
    is optional in JavaScript; Cesium takes a missing epsilon as [0]. *)
Definition equalsEpsilon (left right : t) (epsilon : option Q) : bool :=
  Qle_bool (Qabs (secondsDifference left right)) (default 0 epsilon).

(** [JulianDate.addSeconds(date, seconds, result)]. *)
Definition addSeconds (date : t) (seconds : Q) : t := date + seconds.

(** The date [new JulianDate(0, 0)] with its fields zeroed, as
    [jump.dayNumber = jump.secondsOfDay = 0] leaves it. *)
Definition zero : t := 0.

End JulianDate.

Abbreviation Time := JulianDate.t.

(** ** Payloads of intervals

    An interval's [data] is the flight or the video it belongs to; the
    constructor records what [instanceof] answers. *)

Inductive Payload : Type :=
  | FlightRef (id : nat)
  | VideoRef (id : nat).

#[global] Instance Payload_eq_dec : EqDecision Payload.
Proof. solve_decision. Defined.

(** ** The Cesium library: intervals *)

Module TimeInterval.

(** [app.js] builds every interval of its collections with
    [isStartIncluded] left at its default [true] and
    [isStopIncluded: false], and the collection operations below only
    derive intervals of that shape, so the two flags are not stored:
    an interval is [start, stop).  [oid] is the identity of the
    JavaScript object, [data] its mutable payload field ([None] is
    [null]). *)
Record t : Type := mk {
  oid : nat;
  start : Time;
  stop : Time;
  data : option Payload;
}.

(** [interval.isEmpty] for a half-open interval. *)
Definition isEmpty (i : t) : bool := Qle_bool (stop i) (start i).

(** [TimeInterval.contains(interval, date)]. *)
Definition contains (i : t) (date : Time) : bool :=
  Qle_bool (start i) date && Qltb date (stop i).

(** [new TimeInterval({start, stop, isStopIncluded: false, data})]:
    a fresh object; the second component is the next unused identity. *)
Definition new (start stop : Time) (data : option Payload) (fresh : nat)
  : t * nat :=
  (mk fresh start stop data, S fresh).

(** [interval.clone()]: a fresh object with the same fields. *)
Definition clone (i : t) (fresh : nat) : t * nat :=
  new (start i) (stop i) (data i) fresh.

(** [interval.data = value] seen from a holder of a reference: the copy
    [i] changes when it denotes the assigned object. *)
Definition set_data (target : nat) (value : option Payload) (i : t) : t :=
  if Nat.eqb (oid i) target then mk (oid i) (start i) (stop i) value else i.

End TimeInterval.

(** ** The Cesium library: interval collections *)

Module TimeIntervalCollection.

Import TimeInterval.

(** The [_intervals] array of the collection, sorted by start. *)
Definition t : Type := list TimeInterval.t.

Definition length (c : t) : Z := Z.of_nat (List.length c).

(** [collection.get(index)]: [undefined] outside the array. *)
Definition get (c : t) (index : Z) : option TimeInterval.t :=
  if (index <? 0)%Z then None else c !! Z.to_nat index.

(** [collection.start] and [collection.stop]. *)
Definition start (c : t) : option Time := TimeInterval.start <$> head c.
Definition stop (c : t) : option Time := TimeInterval.stop <$> last c.

(** The search by start date that the collection runs on its sorted array:
    the index of the interval starting at [date], else the complement
    [~i] of the index [i] of the first interval starting after [date]
    (the array length when there is none). *)
Fixpoint binarySearch (c : t) (date : Time) (i : Z) : Z :=
  match c with
  | [] => Z.lnot i
  | x :: rest =>
      if Qeq_bool (TimeInterval.start x) date then i
      else if Qltb date (TimeInterval.start x) then Z.lnot i
      else binarySearch rest date (i + 1)%Z
  end.

(** [collection.indexOf(date)]: the index of the interval containing
    [date], else the complement of the index of the next interval. *)
Definition indexOf (c : t) (date : Time) : Z :=
  let index := binarySearch c date 0 in
  if (0 <=? index)%Z then index
  else
    let index := Z.lnot index in
    match get c (index - 1) with
    | Some before =>
        if contains before date then (index - 1)%Z else Z.lnot index
    | None => Z.lnot index
    end.

(** [collection.findIntervalContainingDate(date)]. *)
Definition findIntervalContainingDate (c : t) (date : Time)
  : option TimeInterval.t :=
  let index := indexOf c date in
  if (0 <=? index)%Z then get c index else None.

(** [collection.findDataForIntervalContainingDate(date)]. *)
Definition findDataForIntervalContainingDate (c : t) (date : Time)
  : option Payload :=
  findIntervalContainingDate c date ≫= data.

(** The array index at which an interval starting at [date] belongs. *)
Definition insertionIndex (c : t) (date : Time) : nat :=
  let index := binarySearch c date 0 in
  Z.to_nat (if (0 <=? index)%Z then index else Z.lnot index).

(** [left.data === right.data]. *)
Definition sameData (left right : TimeInterval.t) : bool :=
  bool_decide (data left = data right).

(** First half of [addInterval]: the interval before the insertion
    index.  [before] is the array up to the index, [after] the rest.
    When the previous interval reaches the new one, it is merged into the
    new one if it has the same data, else it is cut at the new start and
    what extends beyond the new stop is kept as a piece of its own. *)
Definition addPrevious (before after : t) (interval : TimeInterval.t)
    (fresh : nat) : t * t * TimeInterval.t * nat :=
  match last before with
  | None => (before, after, interval, fresh)
  | Some prev =>
      if Qle_bool (TimeInterval.start interval) (TimeInterval.stop prev) then
        if sameData prev interval then
          let stop' :=
            if JulianDate.greaterThan (TimeInterval.stop interval)
                 (TimeInterval.stop prev)
            then TimeInterval.stop interval else TimeInterval.stop prev in
          let '(merged, fresh) :=
            new (TimeInterval.start prev) stop' (data interval) fresh in
          (removelast before, after, merged, fresh)
        else
          let '(after, fresh) :=
            if JulianDate.greaterThan (TimeInterval.stop prev)
                 (TimeInterval.stop interval)
            then
              let '(piece, fresh) :=
                new (TimeInterval.stop interval) (TimeInterval.stop prev)
                    (data prev) fresh in
              (piece :: after, fresh)
            else (after, fresh) in
          let '(cut, fresh) :=
            new (TimeInterval.start prev) (TimeInterval.start interval)
                (data prev) fresh in
          (removelast before ++ [cut], after, interval, fresh)
      else (before, after, interval, fresh)
  end.

(** Second half of [addInterval]: the [while] loop over the intervals
    from the insertion index on.  An interval the new one reaches is
    merged (same data) or cut at the new stop (different data); a cut
    that leaves nothing removes the interval and the loop goes on. *)
Fixpoint addFollowing (after : t) (interval : TimeInterval.t) (fresh : nat)
  : t * TimeInterval.t * nat :=
  match after with
  | [] => ([], interval, fresh)
  | next :: rest =>
      if Qle_bool (TimeInterval.start next) (TimeInterval.stop interval) then
        if sameData next interval then
          let later :=
            JulianDate.greaterThan (TimeInterval.stop next)
              (TimeInterval.stop interval) in
          let '(merged, fresh) :=
            new (TimeInterval.start interval)
                (if later then TimeInterval.stop next
                 else TimeInterval.stop interval)
                (data interval) fresh in
          addFollowing rest merged fresh
        else
          let '(cut, fresh) :=
            new (TimeInterval.stop interval) (TimeInterval.stop next)
                (data next) fresh in
          if isEmpty cut then addFollowing rest interval fresh
          else (cut :: rest, interval, fresh)
      else (after, interval, fresh)
  end.

(** [collection.addInterval(interval)]: the new interval takes
    precedence over what the collection holds on its span.  Nothing in it
    rejects an interval for overlapping another. *)
Definition addInterval (c : t) (interval : TimeInterval.t) (fresh : nat)
  : t * nat :=
  if isEmpty interval then (c, fresh)
  else
    match last c with
    | None => (c ++ [interval], fresh)
    | Some final =>
        if JulianDate.greaterThan (TimeInterval.start interval)
             (TimeInterval.stop final)
        then (c ++ [interval], fresh)
        else
          let index := insertionIndex c (TimeInterval.start interval) in
          let '(before, after, interval, fresh) :=
            addPrevious (take index c) (drop index c) interval fresh in
          let '(after, interval, fresh) :=
            addFollowing after interval fresh in
          (before ++ interval :: after, fresh)
    end.

(** The [while] loop of [removeInterval] that drops the intervals ending
    before the removed span does. *)
Fixpoint removeCovered (after : t) (interval : TimeInterval.t) : t :=
  match after with
  | [] => []
  | x :: rest =>
      if JulianDate.greaterThan (TimeInterval.stop interval)
           (TimeInterval.stop x)
      then removeCovered rest interval
      else after
  end.

(** [collection.removeInterval(interval)]: makes a hole over the span of
    [interval]; the [data] of [interval] is not looked at. *)
Definition removeInterval (c : t) (interval : TimeInterval.t) (fresh : nat)
  : t * nat :=
  if isEmpty interval then (c, fresh)
  else
    let index := insertionIndex c (TimeInterval.start interval) in
    let before := take index c in
    let after := drop index c in
    (* the end of the previous interval *)
    let '(before, after, fresh) :=
      match last before with
      | Some prev =>
          if JulianDate.greaterThan (TimeInterval.stop prev)
               (TimeInterval.start interval)
          then
            let '(after, fresh) :=
              if JulianDate.greaterThan (TimeInterval.stop prev)
                   (TimeInterval.stop interval)
              then
                let '(piece, fresh) :=
                  new (TimeInterval.stop interval) (TimeInterval.stop prev)
                      (data prev) fresh in
                (piece :: after, fresh)
              else (after, fresh) in
            let '(cut, fresh) :=
              new (TimeInterval.start prev) (TimeInterval.start interval)
                  (data prev) fresh in
            (removelast before ++ [cut], after, fresh)
          else (before, after, fresh)
      | None => (before, after, fresh)
      end in
    (* intervals inside the span *)
    let after := removeCovered after interval in
    (* an interval ending where the span ends *)
    let after :=
      match after with
      | x :: rest =>
          if JulianDate.equals (TimeInterval.stop interval)
               (TimeInterval.stop x)
          then rest else after
      | [] => after
      end in
    (* an interval the span ends in *)
    let '(after, fresh) :=
      match after with
      | x :: rest =>
          if JulianDate.greaterThan (TimeInterval.stop interval)
               (TimeInterval.start x)
          then
            let '(cut, fresh) :=
              new (TimeInterval.stop interval) (TimeInterval.stop x)
                  (data x) fresh in
            (cut :: rest, fresh)
          else (after, fresh)
      | [] => (after, fresh)
      end in
    (before ++ after, fresh).

End TimeIntervalCollection.

Abbreviation Collection := TimeIntervalCollection.t.

(** ** The Cesium library: points *)

Module Cartesian3.

Record t : Type := mk { x : Q; y : Q; z : Q }.

Definition add (left right : t) : t :=
  mk (x left + x right) (y left + y right) (z left + z right).

Definition subtract (left right : t) : t :=
  mk (x left - x right) (y left - y right) (z left - z right).

Definition divideByScalar (c : t) (scalar : Q) : t :=
  mk (x c / scalar) (y c / scalar) (z c / scalar).



End Cartesian3.

(** ** Trajectory smoother ([updateTracker] in [Flight.create]) *)

(** An entry of [trackerStack]. *)
Record Sample : Type := {
  position : Cartesian3.t;
  time : Time;
}.

(** The three variables the smoother works on.  [trackerPositions] lists
    the [addSample(time, average)] calls in the order they are made. *)
Record Tracker : Type := {
  trackerStack : list Sample;
  trackerCartesian : Cartesian3.t;
  trackerPositions : list (Time * Cartesian3.t);
}.

Definition TRACKER_WINDOW : nat := 128.

Definition tracker_init : Tracker :=
  {| trackerStack := []; trackerCartesian := Cartesian3.mk 0 0 0;
     trackerPositions := [] |}.

(** [updateTracker(drain)].  [None] is the [TypeError] JavaScript raises
    when [bottom] or [trackerStack[index]] is [undefined]. *)
Definition updateTracker (drain : bool) (tr : Tracker) : option Tracker :=
  tr ← (if drain || (TRACKER_WINDOW <=? List.length (trackerStack tr))%nat then
          match trackerStack tr with
          | bottom :: rest =>
              Some {| trackerStack := rest;
                      trackerCartesian :=
                        Cartesian3.subtract (trackerCartesian tr)
                          (position bottom);
                      trackerPositions := trackerPositions tr |}
          | [] => None
          end
        else Some tr);
  let length := List.length (trackerStack tr) in
  if (drain && negb (length =? 0)%nat) || (TRACKER_WINDOW / 2 <? length)%nat then
    let average :=
      Cartesian3.divideByScalar (trackerCartesian tr)
        (inject_Z (Z.of_nat length)) in
    let index :=
      Z.to_nat (Z.max 0 (Z.of_nat length - Z.of_nat (TRACKER_WINDOW / 2))) in
    s ← trackerStack tr !! index;
    Some {| trackerStack := trackerStack tr;
            trackerCartesian := trackerCartesian tr;
            trackerPositions := trackerPositions tr ++ [(time s, average)] |}
  else Some tr.

(** The body of the loop over the fixes: push the sample, add its position
    to the running sum, update. *)
Definition trackerPush (tr : Tracker) (s : Sample) : option Tracker :=
  updateTracker false
    {| trackerStack := trackerStack tr ++ [s];
       trackerCartesian := Cartesian3.add (trackerCartesian tr) (position s);
       trackerPositions := trackerPositions tr |}.

Fixpoint trackerFeed (tr : Tracker) (samples : list Sample) : option Tracker :=
  match samples with
  | [] => Some tr
  | s :: rest => tr ← trackerPush tr s; trackerFeed tr rest
  end.

(** [while (trackerStack.length > 0) updateTracker(true)], with a bound on
    the number of iterations; [None] also when the bound is reached. *)
Fixpoint trackerDrain (fuel : nat) (tr : Tracker) : option Tracker :=
  match trackerStack tr with
  | [] => Some tr
  | _ :: _ =>
      match fuel with
      | O => None
      | S fuel => tr ← updateTracker true tr; trackerDrain fuel tr
      end
  end.

(** The smoother run on the fixes of a flight: the loop, then the flush. *)
Definition smoothTrack (samples : list Sample) : option Tracker :=
  tr ← trackerFeed tracker_init samples;
  trackerDrain (List.length (trackerStack tr)) tr.


(** ** JavaScript values

    The values a field of [metadata.json] can hold.  [JsUndefined] is an
    absent field; [JsObject] stands for any array or object. *)

Inductive JsValue : Type :=
  | JsUndefined
  | JsNull
  | JsBool (b : bool)
  | JsNumber (n : Q)
  | JsString (s : string)
  | JsObject.

(** What [if (v)] and [v || other] test. *)
Definition truthy (v : JsValue) : bool :=
  match v with
  | JsUndefined | JsNull => false
  | JsBool b => b
  | JsNumber n => negb (Qeq_bool n 0)
  | JsString s => negb (String.eqb s EmptyString)
  | JsObject => true
  end.

(** [typeof v == "number"]. *)
Definition isNumber (v : JsValue) : bool :=
  match v with JsNumber _ => true | _ => false end.

(** ** The console and the error panel

    Of the output of the program the log keeps the warnings, the failed
    assertions and the calls of [changeFlight] and [changeVideo];
    [console.log] and [console.info] lines are not kept. *)

Inductive LogEntry : Type :=
  (** [warning(message, ...args)]: [console.warn] and the warning panel *)
  | Warning (message : string) (args : list JsValue)
  (** [assert(false, ...)]: [console.assert] and the "Code problem" panel *)
  | AssertFailed (what : string)
  (** the call [changeFlight(flight)], with the flight it replaces *)
  | FlightChanged (old new : option Payload)
  (** the call [changeVideo(video)], with the video it replaces *)
  | VideoChanged (old new : option Payload).

(** ** Objects of the application *)

(** [viewer.clock]. *)
Module Clock.
Record t : Type := mk {
  currentTime : Time;
  startTime : Time;
  stopTime : Time;
  multiplier : Q;
  shouldAnimate : bool;
}.
End Clock.

(** The [<video>] or [<div>] element of a video or image. *)
Module Element.
Record t : Type := mk {
  (** the element is a [<video>]: it has [play] and [pause] *)
  isVideo : bool;
  currentTime : Q;
  playbackRate : Q;
  paused : bool;
  visible : bool;
}.
End Element.

Module Pilot.
Record t : Type := mk {
  name : string;
  index : nat;
  flights : Collection;
  videos : Collection;
  (** addresses of the neighbours in the linked list; [None] is
      [undefined], before the constructor sets the field *)
  next : option nat;
  prev : option nat;
}.
End Pilot.

(** A fix of the parsed IGC record, with its timestamp parsed and its
    position converted by [Cartesian3.fromDegrees]. *)
Module IgcData.
Record t : Type := mk {
  pilot : string;
  fixes : list Sample;
}.
End IgcData.

Module Flight.
Record t : Type := mk {
  name : string;
  igcData : IgcData.t;
  (** the samples of [trackerPositions] *)
  tracker : list (Time * Cartesian3.t);
  interval : option TimeInterval.t;
  pilot : option nat;
  (** [this.range] is set *)
  range : bool;
}.
End Flight.

(** An entry of [metadata.videos], with its timestamp parsed. *)
Module VideoData.
Record t : Type := mk {
  filename : string;
  pilot : string;
  timestamp : Time;
  duration : JsValue;
  rate : JsValue;
  longitude : JsValue;
  latitude : JsValue;
  altitude : JsValue;
}.
End VideoData.

Module Video.
Record t : Type := mk {
  name : string;
  videoData : VideoData.t;
  element : option Element.t;
  rate : Q;
  (** [this.ticker] is set: [syncVideo] listens to the clock *)
  ticker : bool;
  originalRate : option Q;
  interval : option TimeInterval.t;
  pilot : option nat;
  range : bool;
}.
End Video.

(** ** The state of the application

    The global [state], [viewer.clock], the variables [currentFlight] and
    [currentVideo] of [initialize], and the objects reachable from them. *)

Record State : Type := mkState {
  (** [state.pilots]: the own properties, name and address of the pilot,
      in the order they were created *)
  pilots : list (string * nat);
  (** [state.intervals] *)
  intervals : Collection;
  (** [state.pilot] and [state.any] *)
  statePilot : option nat;
  stateAny : option nat;
  currentFlight : option Payload;
  currentVideo : option Payload;
  clock : Clock.t;
  pilotHeap : gmap nat Pilot.t;
  flightHeap : gmap nat Flight.t;
  videoHeap : gmap nat Video.t;
  (** the next unused identity of a [TimeInterval] *)
  nextOid : nat;
  (** the colors not yet given to a pilot *)
  colors : list string;
  console : list LogEntry;
}.

Definition with_pilots (v : list (string * nat)) (st : State) : State :=
  mkState v (intervals st) (statePilot st) (stateAny st) (currentFlight st)
    (currentVideo st) (clock st) (pilotHeap st) (flightHeap st) (videoHeap st)
    (nextOid st) (colors st) (console st).

Definition with_intervals (v : Collection) (st : State) : State :=
  mkState (pilots st) v (statePilot st) (stateAny st) (currentFlight st)
    (currentVideo st) (clock st) (pilotHeap st) (flightHeap st) (videoHeap st)
    (nextOid st) (colors st) (console st).

Definition with_statePilot (v : option nat) (st : State) : State :=
  mkState (pilots st) (intervals st) v (stateAny st) (currentFlight st)
    (currentVideo st) (clock st) (pilotHeap st) (flightHeap st) (videoHeap st)
    (nextOid st) (colors st) (console st).

Definition with_stateAny (v : option nat) (st : State) : State :=
  mkState (pilots st) (intervals st) (statePilot st) v (currentFlight st)
    (currentVideo st) (clock st) (pilotHeap st) (flightHeap st) (videoHeap st)
    (nextOid st) (colors st) (console st).

Definition with_currentFlight (v : option Payload) (st : State) : State :=
  mkState (pilots st) (intervals st) (statePilot st) (stateAny st) v
    (currentVideo st) (clock st) (pilotHeap st) (flightHeap st) (videoHeap st)
    (nextOid st) (colors st) (console st).

Definition with_currentVideo (v : option Payload) (st : State) : State :=
  mkState (pilots st) (intervals st) (statePilot st) (stateAny st)
    (currentFlight st) v (clock st) (pilotHeap st) (flightHeap st)
    (videoHeap st) (nextOid st) (colors st) (console st).

Definition with_clock (v : Clock.t) (st : State) : State :=
  mkState (pilots st) (intervals st) (statePilot st) (stateAny st)
    (currentFlight st) (currentVideo st) v (pilotHeap st) (flightHeap st)
    (videoHeap st) (nextOid st) (colors st) (console st).

Definition with_pilotHeap (v : gmap nat Pilot.t) (st : State) : State :=
  mkState (pilots st) (intervals st) (statePilot st) (stateAny st)
    (currentFlight st) (currentVideo st) (clock st) v (flightHeap st)
    (videoHeap st) (nextOid st) (colors st) (console st).

Definition with_flightHeap (v : gmap nat Flight.t) (st : State) : State :=
  mkState (pilots st) (intervals st) (statePilot st) (stateAny st)
    (currentFlight st) (currentVideo st) (clock st) (pilotHeap st) v
    (videoHeap st) (nextOid st) (colors st) (console st).

Definition with_videoHeap (v : gmap nat Video.t) (st : State) : State :=
  mkState (pilots st) (intervals st) (statePilot st) (stateAny st)
    (currentFlight st) (currentVideo st) (clock st) (pilotHeap st)
    (flightHeap st) v (nextOid st) (colors st) (console st).

Definition with_nextOid (v : nat) (st : State) : State :=
  mkState (pilots st) (intervals st) (statePilot st) (stateAny st)
    (currentFlight st) (currentVideo st) (clock st) (pilotHeap st)
    (flightHeap st) (videoHeap st) v (colors st) (console st).

Definition with_colors (v : list string) (st : State) : State :=
  mkState (pilots st) (intervals st) (statePilot st) (stateAny st)
    (currentFlight st) (currentVideo st) (clock st) (pilotHeap st)
    (flightHeap st) (videoHeap st) (nextOid st) v (console st).

(** Appends an entry to the console. *)
Definition report (e : LogEntry) (st : State) : State :=
  mkState (pilots st) (intervals st) (statePilot st) (stateAny st)
    (currentFlight st) (currentVideo st) (clock st) (pilotHeap st)
    (flightHeap st) (videoHeap st) (nextOid st) (colors st) (console st ++ [e]).

(** [warning(message, ...args)]. *)
Definition warning (message : string) (args : list JsValue) (st : State)
  : State :=
  report (Warning message args) st.

(** [assert(condition)]: a failed assertion is reported, and the program
    goes on. *)
Definition assert (condition : bool) (what : string) (st : State) : State :=
  if condition then st else report (AssertFailed what) st.

(** ** Calls that can throw

    A call runs on the state and either returns a value or throws; in both
    cases the changes it made to the state so far stay. *)

Inductive Outcome (A : Type) : Type :=
  | Return (value : A) (st : State)
  | Throw (error : string) (st : State).

Arguments Return {A} value st.
Arguments Throw {A} error st.

Definition M (A : Type) : Type := State -> Outcome A.

Definition ret {A : Type} (a : A) : M A := fun st => Return a st.

Definition throw {A : Type} (error : string) : M A := fun st => Throw error st.

Definition bind {A B : Type} (m : M A) (k : A -> M B) : M B :=
  fun st =>
    match m st with
    | Return a st => k a st
    | Throw e st => Throw e st
    end.

(** A step that changes the state and cannot throw. *)
Definition run (f : State -> State) : M unit := fun st => Return tt (f st).

(** Reads the state. *)
Definition gets {A : Type} (f : State -> A) : M A := fun st => Return (f st) st.

(** Reading a field of [undefined] or [null] is a [TypeError]. *)
Definition defined {A : Type} (what : string) (o : option A) : M A :=
  match o with
  | Some a => ret a
  | None => throw what
  end.

Notation "'let*' x ':=' m 'in' k" := (bind m (fun x => k))
  (at level 10, x pattern, m at level 100, k at level 200).

Notation "m ';;' k" := (bind m (fun _ => k))
  (at level 100, k at level 200, right associativity).

(** The state a call leaves, whether it returned or threw. *)
Definition stateOf {A : Type} (o : Outcome A) : State :=
  match o with
  | Return _ st => st
  | Throw _ st => st
  end.

(** The call returned. *)
Definition returned {A : Type} (o : Outcome A) : bool :=
  match o with
  | Return _ _ => true
  | Throw _ _ => false
  end.

(** ** Own properties of a JavaScript object

    [state.pilots] is a plain object used as a dictionary.  Its own
    properties are enumerated with the keys that are array indices first, in
    increasing order, then the other keys in the order they were created.
    Properties inherited from [Object.prototype] are not represented. *)

(** The number a decimal digit stands for. *)
Definition digitValue (a : Ascii.ascii) : option N :=
  let n := Ascii.N_of_ascii a in
  if ((48 <=? n) && (n <=? 57))%N then Some (n - 48)%N else None.

Fixpoint digitsValue (s : string) (acc : N) : option N :=
  match s with
  | EmptyString => Some acc
  | String a rest => d ← digitValue a; digitsValue rest (acc * 10 + d)%N
  end.

(** The array index a key denotes: a canonical numeric string below
    [2^32 - 1]. *)
Definition arrayIndex (key : string) : option N :=
  match key with
  | EmptyString => None
  | String a rest =>
      if (Ascii.eqb a "0"%char) then
        match rest with EmptyString => Some 0%N | _ => None end
      else
        n ← digitsValue key 0;
        if (n <? 2 ^ 32 - 1)%N then Some n else None
  end.

(** Inserts a property with an array-index key at its place. *)
Fixpoint insertIndexed {A : Type} (n : N) (entry : string * A)
    (sorted : list (N * (string * A))) : list (N * (string * A)) :=
  match sorted with
  | [] => [(n, entry)]
  | (m, e) :: rest =>
      if (n <? m)%N then (n, entry) :: sorted
      else (m, e) :: insertIndexed n entry rest
  end.

(** The properties with an array-index key, in increasing order of key. *)
Fixpoint indexedProperties {A : Type} (props : list (string * A))
  : list (N * (string * A)) :=
  match props with
  | [] => []
  | (key, v) :: rest =>
      match arrayIndex key with
      | Some n => insertIndexed n (key, v) (indexedProperties rest)
      | None => indexedProperties rest
      end
  end.

(** The own properties in enumeration order, as [Object.keys] and
    [Object.values] list them. *)
Definition ownProperties {A : Type} (props : list (string * A))
  : list (string * A) :=
  map snd (indexedProperties props)
  ++ filter (fun e => arrayIndex (fst e) = None) props.

(** [object[key]]. *)
Fixpoint getProperty {A : Type} (props : list (string * A)) (key : string)
  : option A :=
  match props with
  | [] => None
  | (k, v) :: rest => if String.eqb k key then Some v else getProperty rest key
  end.

(** [object[key] = value]: an existing property keeps its place. *)
Fixpoint setProperty {A : Type} (props : list (string * A)) (key : string)
    (value : A) : list (string * A) :=
  match props with
  | [] => [(key, value)]
  | (k, v) :: rest =>
      if String.eqb k key then (k, value) :: rest
      else (k, v) :: setProperty rest key value
  end.

(** ** Reading and writing the objects of the heap *)

Definition alterPilot (f : Pilot.t -> Pilot.t) (address : nat) (st : State)
  : State :=
  with_pilotHeap (alter f address (pilotHeap st)) st.

Definition alterFlight (f : Flight.t -> Flight.t) (id : nat) (st : State)
  : State :=
  with_flightHeap (alter f id (flightHeap st)) st.

Definition alterVideo (f : Video.t -> Video.t) (id : nat) (st : State)
  : State :=
  with_videoHeap (alter f id (videoHeap st)) st.

Definition Pilot_set_next (v : option nat) (p : Pilot.t) : Pilot.t :=
  Pilot.mk (Pilot.name p) (Pilot.index p) (Pilot.flights p) (Pilot.videos p)
    v (Pilot.prev p).

Definition Pilot_set_prev (v : option nat) (p : Pilot.t) : Pilot.t :=
  Pilot.mk (Pilot.name p) (Pilot.index p) (Pilot.flights p) (Pilot.videos p)
    (Pilot.next p) v.

Definition Pilot_set_flights (v : Collection) (p : Pilot.t) : Pilot.t :=
  Pilot.mk (Pilot.name p) (Pilot.index p) v (Pilot.videos p)
    (Pilot.next p) (Pilot.prev p).

Definition Pilot_set_videos (v : Collection) (p : Pilot.t) : Pilot.t :=
  Pilot.mk (Pilot.name p) (Pilot.index p) (Pilot.flights p) v
    (Pilot.next p) (Pilot.prev p).

Definition Flight_set_interval (v : option TimeInterval.t) (f : Flight.t)
  : Flight.t :=
  Flight.mk (Flight.name f) (Flight.igcData f) (Flight.tracker f) v
    (Flight.pilot f) (Flight.range f).

Definition Flight_set_pilot (v : option nat) (f : Flight.t) : Flight.t :=
  Flight.mk (Flight.name f) (Flight.igcData f) (Flight.tracker f)
    (Flight.interval f) v (Flight.range f).

Definition Flight_set_range (v : bool) (f : Flight.t) : Flight.t :=
  Flight.mk (Flight.name f) (Flight.igcData f) (Flight.tracker f)
    (Flight.interval f) (Flight.pilot f) v.

Definition Flight_set_tracker (v : list (Time * Cartesian3.t)) (f : Flight.t)
  : Flight.t :=
  Flight.mk (Flight.name f) (Flight.igcData f) v (Flight.interval f)
    (Flight.pilot f) (Flight.range f).

Definition Video_set_element (v : option Element.t) (o : Video.t) : Video.t :=
  Video.mk (Video.name o) (Video.videoData o) v (Video.rate o)
    (Video.ticker o) (Video.originalRate o) (Video.interval o)
    (Video.pilot o) (Video.range o).

Definition Video_set_rate (v : Q) (o : Video.t) : Video.t :=
  Video.mk (Video.name o) (Video.videoData o) (Video.element o) v
    (Video.ticker o) (Video.originalRate o) (Video.interval o)
    (Video.pilot o) (Video.range o).

Definition Video_set_ticker (v : bool) (o : Video.t) : Video.t :=
  Video.mk (Video.name o) (Video.videoData o) (Video.element o)
    (Video.rate o) v (Video.originalRate o) (Video.interval o)
    (Video.pilot o) (Video.range o).

Definition Video_set_originalRate (v : option Q) (o : Video.t) : Video.t :=
  Video.mk (Video.name o) (Video.videoData o) (Video.element o)
    (Video.rate o) (Video.ticker o) v (Video.interval o)
    (Video.pilot o) (Video.range o).

Definition Video_set_interval (v : option TimeInterval.t) (o : Video.t)
  : Video.t :=
  Video.mk (Video.name o) (Video.videoData o) (Video.element o)
    (Video.rate o) (Video.ticker o) (Video.originalRate o) v
    (Video.pilot o) (Video.range o).

Definition Video_set_pilot (v : option nat) (o : Video.t) : Video.t :=
  Video.mk (Video.name o) (Video.videoData o) (Video.element o)
    (Video.rate o) (Video.ticker o) (Video.originalRate o)
    (Video.interval o) v (Video.range o).

Definition Video_set_range (v : bool) (o : Video.t) : Video.t :=
  Video.mk (Video.name o) (Video.videoData o) (Video.element o)
    (Video.rate o) (Video.ticker o) (Video.originalRate o)
    (Video.interval o) (Video.pilot o) v.

(** [obj.interval], [obj.pilot] and [obj.name] of a flight or video;
    [None] when the field is [null] or the object unknown. *)
Definition objInterval (obj : Payload) (st : State) : option TimeInterval.t :=
  match obj with
  | FlightRef id => flightHeap st !! id ≫= Flight.interval
  | VideoRef id => videoHeap st !! id ≫= Video.interval
  end.

Definition objPilot (obj : Payload) (st : State) : option nat :=
  match obj with
  | FlightRef id => flightHeap st !! id ≫= Flight.pilot
  | VideoRef id => videoHeap st !! id ≫= Video.pilot
  end.

(** [obj.pilot = value]. *)
Definition setObjPilot (obj : Payload) (value : option nat) (st : State)
  : State :=
  match obj with
  | FlightRef id => alterFlight (Flight_set_pilot value) id st
  | VideoRef id => alterVideo (Video_set_pilot value) id st
  end.

(** [obj.interval = value]. *)
Definition setObjInterval (obj : Payload) (value : option TimeInterval.t)
    (st : State) : State :=
  match obj with
  | FlightRef id => alterFlight (Flight_set_interval value) id st
  | VideoRef id => alterVideo (Video_set_interval value) id st
  end.

(** [interval.data = value] on the interval object [target]: every
    reference to that object, in the collections of the pilots, in
    [state.intervals] and in the flights and videos, sees the new [data]. *)
Definition setIntervalData (target : nat) (value : option Payload) (st : State)
  : State :=
  let upd := TimeInterval.set_data target value in
  let st :=
    with_pilotHeap
      ((fun p => Pilot_set_videos (map upd (Pilot.videos p))
                   (Pilot_set_flights (map upd (Pilot.flights p)) p))
         <$> pilotHeap st) st in
  let st := with_intervals (map upd (intervals st)) st in
  let st :=
    with_flightHeap
      ((fun f => Flight_set_interval (upd <$> Flight.interval f) f)
         <$> flightHeap st) st in
  with_videoHeap
    ((fun v => Video_set_interval (upd <$> Video.interval v) v)
       <$> videoHeap st) st.

(** ** Pilots *)

(** [new Pilot(name)].  The pilot takes the next color; when none is left
    [Cesium.Color.fromCssColorString(undefined)] throws before the pilot
    is registered.  Returns the address of the pilot. *)
Definition Pilot_new (name : string) : M nat :=
  fun st =>
    let this := fresh (dom (pilotHeap st)) in
    let index := List.length (ownProperties (pilots st)) in
    match colors st with
    | [] => Throw "TypeError: color is undefined" st
    | _ :: remaining =>
        let st := with_colors remaining st in
        let st :=
          assert (negb (bool_decide (is_Some (getProperty (pilots st) name))))
            "!state.pilots[this.name]" st in
        let first := snd <$> head (ownProperties (pilots st)) in
        let st := with_pilots (setProperty (pilots st) name this) st in
        (* first = this.next = first || this *)
        let next := default this first in
        let st :=
          with_pilotHeap
            (<[this := Pilot.mk name index [] [] (Some next) None]>
               (pilotHeap st)) st in
        (* this.prev = this.next.prev || this *)
        let prev := default this (pilotHeap st !! next ≫= Pilot.prev) in
        let st := alterPilot (Pilot_set_prev (Some prev)) this st in
        (* this.prev.next = this *)
        let st := alterPilot (Pilot_set_next (Some this)) prev st in
        (* this.next.prev = this *)
        let st := alterPilot (Pilot_set_prev (Some this)) next st in
        Return this st
    end.

(** [Pilot.ensure(name)]. *)
Definition Pilot_ensure (name : string) : M nat :=
  let* known := gets (fun st => getProperty (pilots st) name) in
  let* pilot :=
    match known with
    | Some pilot => ret pilot
    | None => Pilot_new name
    end in
  let* registered := gets (fun st => getProperty (pilots st) name) in
  run (assert (bool_decide (is_Some registered)) "state.pilots[name]") ;;
  ret pilot.

(** [Pilot.change(pilot)]; the argument is [undefined] when it was read
    from a link that is not set. *)
Definition Pilot_change (pilot : option nat) : M unit :=
  run (with_statePilot pilot) ;;
  let* p := gets (fun st => pilot ≫= fun a => pilotHeap st !! a) in
  let* _ := defined "TypeError: pilot is undefined" p in
  ret tt.

(** [pilot.add(obj)] on the pilot at address [this].  It removes the span
    of the interval from the pilot's collection and adds the interval, then
    adds a clone to [state.intervals].  No step compares the new interval
    with the ones present, warns or throws because of an overlap. *)
Definition Pilot_add (this : nat) (obj : Payload) : M unit :=
  let* interval := gets (objInterval obj) in
  let* interval := defined "TypeError: obj.interval is null" interval in
  run (assert (bool_decide (TimeInterval.data interval = Some obj))
         "obj.interval.data == obj") ;;
  let* pilot := gets (fun st => pilotHeap st !! this) in
  let* pilot := defined "TypeError: this is undefined" pilot in
  (* Two interval collections depending on the type *)
  let collection :=
    match obj with
    | FlightRef _ => Pilot.flights pilot
    | VideoRef _ => Pilot.videos pilot
    end in
  (* Make sure this can be called multiple times *)
  let* oid := gets nextOid in
  let '(collection, oid) :=
    TimeIntervalCollection.removeInterval collection interval oid in
  let '(collection, oid) :=
    TimeIntervalCollection.addInterval collection interval oid in
  run (alterPilot
         match obj with
         | FlightRef _ => Pilot_set_flights collection
         | VideoRef _ => Pilot_set_videos collection
         end this) ;;
  (* This governs the whole timeline *)
  let '(copy, oid) := TimeInterval.clone interval oid in
  let* all := gets intervals in
  let '(all, oid) := TimeIntervalCollection.addInterval all copy oid in
  run (with_intervals all) ;;
  run (with_nextOid oid) ;;
  run (setObjPilot obj (Some this)).

(** [pilot.remove(obj)]: the span of the interval is removed from the
    pilot's collection.  [state.intervals] is not touched. *)
Definition Pilot_remove (this : nat) (obj : Payload) : M unit :=
  let* interval := gets (objInterval obj) in
  let* interval := defined "TypeError: obj.interval is null" interval in
  run (assert (bool_decide (TimeInterval.data interval = Some obj))
         "obj.interval.data == obj") ;;
  let* pilot := gets (fun st => pilotHeap st !! this) in
  let* pilot := defined "TypeError: this is undefined" pilot in
  let collection :=
    match obj with
    | FlightRef _ => Pilot.flights pilot
    | VideoRef _ => Pilot.videos pilot
    end in
  let* oid := gets nextOid in
  let '(collection, oid) :=
    TimeIntervalCollection.removeInterval collection interval oid in
  run (alterPilot
         match obj with
         | FlightRef _ => Pilot_set_flights collection
         | VideoRef _ => Pilot_set_videos collection
         end this) ;;
  run (with_nextOid oid) ;;
  run (setObjPilot obj None).

(** ** Flights *)

(** [new Flight(igcData, filename)]; returns the address of the flight. *)
Definition Flight_new (igcData : IgcData.t) (filename : string) : M nat :=
  fun st =>
    let this := fresh (dom (flightHeap st)) in
    Return this
      (with_flightHeap
         (<[this := Flight.mk filename igcData [] None None false]>
            (flightHeap st)) st).

(** [flight.create()].  The interval of the flight runs from the time of
    the first fix to the time of the last one. *)
Definition Flight_create (this : nat) : M unit :=
  let* flight := gets (fun st => flightHeap st !! this) in
  let* flight := defined "TypeError: this is undefined" flight in
  let igcData := Flight.igcData flight in
  let* pilot := Pilot_ensure (IgcData.pilot igcData) in
  let* tracker :=
    defined "TypeError: bottom is undefined" (smoothTrack (IgcData.fixes igcData)) in
  let startTime := time <$> head (IgcData.fixes igcData) in
  let endTime := time <$> last (IgcData.fixes igcData) in
  (* endTime.clone() *)
  let* endTime := defined "TypeError: endTime is null" endTime in
  let startTime := default endTime startTime in
  let* oid := gets nextOid in
  let '(interval, oid) :=
    TimeInterval.new startTime endTime (Some (FlightRef this)) oid in
  run (with_nextOid oid) ;;
  run (alterFlight (Flight_set_tracker (trackerPositions tracker)) this) ;;
  run (alterFlight (Flight_set_interval (Some interval)) this) ;;
  Pilot_add pilot (FlightRef this) ;;
  let* owner := gets (objPilot (FlightRef this)) in
  run (assert (bool_decide (owner = Some pilot)) "this.pilot == pilot") ;;
  let* range := gets (fun st => Flight.range <$> flightHeap st !! this) in
  run (assert (negb (default false range)) "!this.range") ;;
  run (alterFlight (Flight_set_range true) this).

(** [Flight.load(filename)], given the record parsed from the file. *)
Definition Flight_load (igcData : IgcData.t) (filename : string) : M nat :=
  let* flight := Flight_new igcData filename in
  Flight_create flight ;;
  ret flight.

(** [flight.destroy()].  The flight leaves the collection of its pilot;
    no statement of it touches [state.intervals]. *)
Definition Flight_destroy (this : nat) : M unit :=
  let* flight := gets (fun st => flightHeap st !! this) in
  let* flight := defined "TypeError: this is undefined" flight in
  run (assert (Flight.range flight) "this.range") ;;
  (* this.range.setRange(null, null) *)
  (if Flight.range flight then ret tt
   else throw "TypeError: this.range is undefined") ;;
  run (alterFlight (Flight_set_range false) this) ;;
  (* this.pilot.remove(this) *)
  let* pilot := defined "TypeError: this.pilot is null" (Flight.pilot flight) in
  Pilot_remove pilot (FlightRef this) ;;
  let* owner := gets (objPilot (FlightRef this)) in
  run (assert (bool_decide (owner = None)) "this.pilot == null") ;;
  (* this.interval.data = null; this.interval = null *)
  let* interval := gets (objInterval (FlightRef this)) in
  let* interval := defined "TypeError: this.interval is null" interval in
  run (setIntervalData (TimeInterval.oid interval) None) ;;
  run (setObjInterval (FlightRef this) None).

(** ** Videos and images *)

Definition DEFAULT_RATE : Q := 50.
Definition DEFAULT_DURATION : Q := 5.
Definition IMAGE_EXTS : list string := [".jpg"; ".jpeg"; ".png"]%string.

(** [String.prototype.toLowerCase] on the letters A to Z. *)
Definition lowerAscii (a : ascii) : ascii :=
  let n := N_of_ascii a in
  if ((65 <=? n) && (n <=? 90))%N then ascii_of_N (n + 32) else a.

Fixpoint toLowerCase (s : string) : string :=
  match s with
  | EmptyString => EmptyString
  | String a rest => String (lowerAscii a) (toLowerCase rest)
  end.

(** [s.endsWith(ext)]. *)
Definition endsWith (s ext : string) : bool :=
  let n := String.length s in
  let m := String.length ext in
  (m <=? n)%nat && String.eqb (substring (n - m) m s) ext.

(** [assumeFileType(filename, exts) != null]. *)
Definition assumeFileType (filename : string) (exts : list string) : bool :=
  existsb (endsWith (toLowerCase filename)) exts.

(** [parseDuration(timestamp)].  [fromIso8601] gives the seconds Cesium
    reads in a time of day, [None] when its parser throws. *)
Definition parseDuration (fromIso8601 : string -> option Q)
    (timestamp : JsValue) : State -> option Q * State :=
  fun st =>
    match timestamp with
    | JsNumber n => (Some n, st)
    | JsString s =>
        if truthy timestamp then
          match fromIso8601 s with
          | Some seconds => (Some seconds, st)
          | None =>
              (None,
               warning "Couldn't parse duration in metadata:" [timestamp] st)
          end
        else (None, st)
    | _ =>
        if truthy timestamp then
          (None, warning "Couldn't parse duration in metadata:" [timestamp] st)
        else (None, st)
    end.

(** [new Video(videoData)]; returns the address of the video. *)
Definition Video_new (videoData : VideoData.t) : M nat :=
  fun st =>
    let this := fresh (dom (videoHeap st)) in
    Return this
      (with_videoHeap
         (<[this := Video.mk (VideoData.filename videoData) videoData None 1
                      false None None None false]> (videoHeap st)) st).

(** The check of [videoData.rate] at the start of [video.create()]. *)
Definition Video_checkRate (this : nat) (rate : JsValue) : State -> State :=
  fun st =>
    if truthy rate then
      match rate with
      | JsNumber n =>
          if Qle_bool n 0 then warning "Invalid rate for video:" [rate] st
          else alterVideo (Video_set_rate n) this st
      | _ => warning "Invalid rate for video:" [rate] st
      end
    else st.

(** [v || 0] of a coordinate. *)
Definition orZero (v : JsValue) : JsValue :=
  if truthy v then v else JsNumber 0.

(** The check of the coordinates in [video.create()]. *)
Definition Video_checkPosition (videoData : VideoData.t) : State -> State :=
  fun st =>
    let lon := VideoData.longitude videoData in
    let lat := VideoData.latitude videoData in
    let alt := VideoData.altitude videoData in
    if truthy lon || truthy lat || truthy alt then
      match orZero lon, orZero lat, orZero alt with
      | JsNumber longitude, JsNumber latitude, JsNumber altitude =>
          if Qltb 180 (Qabs longitude) || Qltb 90 (Qabs latitude)
             || Qltb altitude 0
          then
            warning "Invalid latitude/longitude/altitude position:"
              [orZero lat; orZero lon; orZero alt] st
          else st
      | _, _, _ =>
          warning "Invalid latitude/longitude/altitude position:"
            [orZero lat; orZero lon; orZero alt] st
      end
    else st.

(** [completeVideo] of [video.create()]: the interval of the video is
    [start, start + duration * rate). *)
Definition Video_complete (fromIso8601 : string -> option Q) (this pilot : nat)
  : M unit :=
  let* video := gets (fun st => videoHeap st !! this) in
  let* video := defined "TypeError: that is undefined" video in
  let start := VideoData.timestamp (Video.videoData video) in
  let* parsed :=
    (fun st =>
       let '(d, st) :=
         parseDuration fromIso8601
           (VideoData.duration (Video.videoData video)) st in
       Return d st) in
  let duration :=
    match parsed with
    | Some d => if Qeq_bool d 0 then DEFAULT_DURATION else d
    | None => DEFAULT_DURATION
    end in
  let stop := JulianDate.addSeconds start (duration * Video.rate video) in
  let* oid := gets nextOid in
  let '(interval, oid) :=
    TimeInterval.new start stop (Some (VideoRef this)) oid in
  run (with_nextOid oid) ;;
  run (alterVideo (Video_set_interval (Some interval)) this) ;;
  Pilot_add pilot (VideoRef this) ;;
  let* owner := gets (objPilot (VideoRef this)) in
  run (assert (bool_decide (owner = Some pilot)) "that.pilot == pilot") ;;
  let* range := gets (fun st => Video.range <$> videoHeap st !! this) in
  run (assert (negb (default false range)) "!that.range") ;;
  run (alterVideo (Video_set_range true) this).

Definition VideoData_set_duration (v : JsValue) (d : VideoData.t)
  : VideoData.t :=
  VideoData.mk (VideoData.filename d) (VideoData.pilot d)
    (VideoData.timestamp d) v (VideoData.rate d) (VideoData.longitude d)
    (VideoData.latitude d) (VideoData.altitude d).

Definition Video_set_videoData (v : VideoData.t) (o : Video.t) : Video.t :=
  Video.mk (Video.name o) v (Video.element o) (Video.rate o)
    (Video.ticker o) (Video.originalRate o) (Video.interval o)
    (Video.pilot o) (Video.range o).

(** [video.create()], run until its promise settles.  [metadata] is the
    duration the media element reports when its metadata loads, [None]
    when that does not happen within the timeout. *)
Definition Video_create (fromIso8601 : string -> option Q)
    (metadata : option Q) (this : nat) : M unit :=
  let* video := gets (fun st => videoHeap st !! this) in
  let* video := defined "TypeError: this is undefined" video in
  let videoData := Video.videoData video in
  run (Video_checkRate this (VideoData.rate videoData)) ;;
  let isImage := assumeFileType (VideoData.filename videoData) IMAGE_EXTS in
  let element := Element.mk (negb isImage) 0 1 true false in
  let* pilot := Pilot_ensure (VideoData.pilot videoData) in
  run (Video_checkPosition videoData) ;;
  run (alterVideo (Video_set_element (Some element)) this) ;;
  if isImage || truthy (VideoData.duration videoData) then
    Video_complete fromIso8601 this pilot
  else
    match metadata with
    | None => throw "Timeout finding duration of video"
    | Some duration =>
        if Qeq_bool duration 0 then throw "Unable to find duration of video"
        else
          run (alterVideo
                 (Video_set_videoData
                    (VideoData_set_duration (JsNumber duration) videoData))
                 this) ;;
          Video_complete fromIso8601 this pilot
    end.

(** [Video.load(videoData)]. *)
Definition Video_load (fromIso8601 : string -> option Q)
    (metadata : option Q) (videoData : VideoData.t) : M nat :=
  let* video := Video_new videoData in
  Video_create fromIso8601 metadata video ;;
  ret video.

(** ** Media synchroniser *)

(** [Cesium.Math.equalsEpsilon(left, right, relativeEpsilon,
    absoluteEpsilon)]. *)
Definition Math_equalsEpsilon (left right relativeEpsilon absoluteEpsilon : Q)
  : bool :=
  let absDiff := Qabs (left - right) in
  Qle_bool absDiff absoluteEpsilon
  || Qle_bool absDiff
       (relativeEpsilon * (if Qltb (Qabs left) (Qabs right)
                           then Qabs right else Qabs left)).

Definition Element_set_currentTime (v : Q) (e : Element.t) : Element.t :=
  Element.mk (Element.isVideo e) v (Element.playbackRate e)
    (Element.paused e) (Element.visible e).

Definition Element_set_playbackRate (v : Q) (e : Element.t) : Element.t :=
  Element.mk (Element.isVideo e) (Element.currentTime e) v
    (Element.paused e) (Element.visible e).

Definition Element_set_paused (v : bool) (e : Element.t) : Element.t :=
  Element.mk (Element.isVideo e) (Element.currentTime e)
    (Element.playbackRate e) v (Element.visible e).

Definition Element_set_visible (v : bool) (e : Element.t) : Element.t :=
  Element.mk (Element.isVideo e) (Element.currentTime e)
    (Element.playbackRate e) (Element.paused e) v.

(** The playback rate of the element while the clock runs backwards. *)
Definition SLOW_RATE : Q := 1 # 10.

(** [syncVideo()] of [video.start()]: [start] is [interval.start] and
    [rate] the rate of the video. *)
Definition syncVideo (clock : Clock.t) (start : Time) (rate : Q)
    (element : Element.t) : Element.t :=
  let at_ :=
    JulianDate.secondsDifference (Clock.currentTime clock) start / rate in
  let element :=
    if negb (Math_equalsEpsilon at_ (Element.currentTime element) (1 # 10) 1)
    then Element_set_currentTime at_ element
    else element in
  let direction := if Qltb (Clock.multiplier clock) 0 then SLOW_RATE else 1 in
  let element :=
    if negb (Qeq_bool direction (Element.playbackRate element))
    then Element_set_playbackRate direction element
    else element in
  if Clock.shouldAnimate clock && Element.paused element
  then Element_set_paused false element
  else if negb (Clock.shouldAnimate clock) && negb (Element.paused element)
  then Element_set_paused true element
  else element.

Definition Clock_set_multiplier (v : Q) (c : Clock.t) : Clock.t :=
  Clock.mk (Clock.currentTime c) (Clock.startTime c) (Clock.stopTime c) v
    (Clock.shouldAnimate c).

Definition Clock_set_currentTime (v : Time) (c : Clock.t) : Clock.t :=
  Clock.mk v (Clock.startTime c) (Clock.stopTime c) (Clock.multiplier c)
    (Clock.shouldAnimate c).

Definition Clock_set_startTime (v : Time) (c : Clock.t) : Clock.t :=
  Clock.mk (Clock.currentTime c) v (Clock.stopTime c) (Clock.multiplier c)
    (Clock.shouldAnimate c).

Definition Clock_set_stopTime (v : Time) (c : Clock.t) : Clock.t :=
  Clock.mk (Clock.currentTime c) (Clock.startTime c) v (Clock.multiplier c)
    (Clock.shouldAnimate c).

(** The sign [viewer.clock.multiplier < 0 ? -1 : 1]. *)
Definition clockDirection (c : Clock.t) : Q :=
  if Qltb (Clock.multiplier c) 0 then -1 else 1.

(** The [syncVideo] listener of the video at [this], run on the current
    clock. *)
Definition Video_sync (this : nat) : M unit :=
  let* video := gets (fun st => videoHeap st !! this) in
  let* video := defined "TypeError: this is undefined" video in
  let* element := defined "TypeError: element is null" (Video.element video) in
  let* interval :=
    defined "TypeError: interval is null" (Video.interval video) in
  let* clock := gets clock in
  run (alterVideo
         (Video_set_element
            (Some (syncVideo clock (TimeInterval.start interval)
                     (Video.rate video) element))) this).

(** [video.start()]. *)
Definition Video_start (this : nat) : M unit :=
  let* video := gets (fun st => videoHeap st !! this) in
  let* video := defined "TypeError: this is undefined" video in
  let* c := gets clock in
  let direction := clockDirection c in
  run (alterVideo (Video_set_originalRate (Some (Clock.multiplier c))) this) ;;
  run (with_clock (Clock_set_multiplier (Video.rate video * direction) c)) ;;
  (* if (this.element.play) *)
  let* element := defined "TypeError: this.element is null" (Video.element video) in
  (if Element.isVideo element then
     run (alterVideo (Video_set_ticker true) this) ;;
     Video_sync this
   else ret tt) ;;
  let* video := gets (fun st => videoHeap st !! this) in
  let* video := defined "TypeError: this is undefined" video in
  let* element := defined "TypeError: this.element is null" (Video.element video) in
  run (alterVideo (Video_set_element (Some (Element_set_visible true element)))
         this).

(** [video.stop()].  [Math.abs(null)] is [0]. *)
Definition Video_stop (this : nat) : M unit :=
  let* video := gets (fun st => videoHeap st !! this) in
  let* video := defined "TypeError: this is undefined" video in
  let* element := defined "TypeError: this.element is null" (Video.element video) in
  let element := Element_set_visible false element in
  run (alterVideo (Video_set_ticker false) this) ;;
  let element :=
    if Element.isVideo element then Element_set_paused true element
    else element in
  run (alterVideo (Video_set_element (Some element)) this) ;;
  let* c := gets clock in
  run (with_clock
         (Clock_set_multiplier
            (Qabs (default 0 (Video.originalRate video)) * clockDirection c)
            c)).

(** [video.destroy()]. *)
Definition Video_destroy (this : nat) : M unit :=
  Video_stop this ;;
  let* video := gets (fun st => videoHeap st !! this) in
  let* video := defined "TypeError: this is undefined" video in
  run (assert (Video.range video) "this.range") ;;
  (if Video.range video then ret tt
   else throw "TypeError: this.range is undefined") ;;
  run (alterVideo (Video_set_range false) this) ;;
  let* pilot := defined "TypeError: this.pilot is null" (Video.pilot video) in
  Pilot_remove pilot (VideoRef this) ;;
  let* owner := gets (objPilot (VideoRef this)) in
  run (assert (bool_decide (owner = None)) "this.pilot == null") ;;
  let* interval := gets (objInterval (VideoRef this)) in
  let* interval := defined "TypeError: this.interval is null" interval in
  run (setIntervalData (TimeInterval.oid interval) None) ;;
  run (setObjInterval (VideoRef this) None).

(** ** Active-entity resolver *)

(** [changeFlight(flight)]. *)
Definition changeFlight (flight : option Payload) : M unit :=
  fun st =>
    Return tt
      (with_currentFlight flight
         (report (FlightChanged (currentFlight st) flight) st)).

(** A method of a video called on [obj]: a flight has no such method. *)
Definition asVideo (obj : Payload) : M nat :=
  match obj with
  | VideoRef id => ret id
  | FlightRef _ => throw "TypeError: not a function"
  end.

(** [changeVideo(video)]. *)
Definition changeVideo (video : option Payload) : M unit :=
  let* old := gets currentVideo in
  run (report (VideoChanged old video)) ;;
  match old with
  | Some obj => let* id := asVideo obj in Video_stop id
  | None => ret tt
  end ;;
  run (with_currentVideo video) ;;
  match video with
  | Some obj => let* id := asVideo obj in Video_start id
  | None => ret tt
  end.

(** The flight the resolver looks for: the payload of the interval of the
    active pilot's flights that contains the clock time. *)
Definition activeFlight (st : State) : M (option Payload) :=
  let* pilot :=
    defined "TypeError: pilot is null"
      (statePilot st ≫= fun a => pilotHeap st !! a) in
  ret (TimeIntervalCollection.findIntervalContainingDate (Pilot.flights pilot)
         (Clock.currentTime (clock st)) ≫= TimeInterval.data).

(** The video the resolver looks for: in the videos of the active pilot,
    else in those of the "any" pilot. *)
Definition activeVideo (st : State) : M (option Payload) :=
  let* pilot :=
    defined "TypeError: pilot is null"
      (statePilot st ≫= fun a => pilotHeap st !! a) in
  let video :=
    TimeIntervalCollection.findIntervalContainingDate (Pilot.videos pilot)
      (Clock.currentTime (clock st)) ≫= TimeInterval.data in
  if negb (bool_decide (is_Some video))
     && negb (bool_decide (statePilot st = stateAny st))
  then
    let* any :=
      defined "TypeError: any is null"
        (stateAny st ≫= fun a => pilotHeap st !! a) in
    ret (TimeIntervalCollection.findIntervalContainingDate (Pilot.videos any)
           (Clock.currentTime (clock st)) ≫= TimeInterval.data)
  else ret video.

(** The listener of [viewer.clock.onTick] set up by [initialize]. *)
Definition onTick : M unit :=
  let* flight := (fun st => activeFlight st st) in
  let* video := (fun st => activeVideo st st) in
  let* current := gets currentFlight in
  (if bool_decide (flight = current) then ret tt else changeFlight flight) ;;
  let* current := gets currentVideo in
  if bool_decide (video = current) then ret tt else changeVideo video.

(** [viewer.clock.onTick.raiseEvent(viewer.clock)]: the resolver, then
    the [syncVideo] listeners that were registered when the event was
    raised and still are.  A listener that throws ends the event. *)
Definition raiseTick : M unit :=
  let* before := gets currentVideo in
  onTick ;;
  let* after := gets currentVideo in
  match before with
  | Some (VideoRef id) =>
      let* listening :=
        gets (fun st => Video.ticker <$> videoHeap st !! id) in
      if bool_decide (before = after) && default false listening
      then Video_sync id else ret tt
  | _ => ret tt
  end.

(** ** Rebuilding the timeline *)

(** [collection.addInterval] on each interval of a list, in order; the
    intervals are passed as they are, not cloned. *)
Fixpoint addIntervals (c : Collection) (items : list TimeInterval.t)
    (oid : nat) : Collection * nat :=
  match items with
  | [] => (c, oid)
  | i :: rest =>
      let '(c, oid) := TimeIntervalCollection.addInterval c i oid in
      addIntervals c rest oid
  end.

(** [Object.values(state.pilots)]: the pilots in enumeration order.  Every
    address registered in [state.pilots] is the address of a pilot. *)
Definition pilotValues (st : State) : list Pilot.t :=
  omap (fun a => pilotHeap st !! a) (map snd (ownProperties (pilots st))).

(** [loaded(last)]: [state.intervals] is built anew from the collections
    of the pilots, the flights first, then the videos over them, and the
    bounds of the clock are set to its span. *)
Definition loaded (last : option Payload) : M unit :=
  let* owners := gets pilotValues in
  let* oid := gets nextOid in
  let '(all, oid) := addIntervals [] (flat_map Pilot.flights owners) oid in
  let '(all, oid) := addIntervals all (flat_map Pilot.videos owners) oid in
  run (with_intervals all) ;;
  run (with_nextOid oid) ;;
  let* current :=
    match TimeIntervalCollection.start all, TimeIntervalCollection.stop all with
    | Some start, Some stop =>
        run (fun st =>
               with_clock
                 (Clock_set_stopTime stop (Clock_set_startTime start (clock st)))
                 st) ;;
        ret (Some start)
    | _, _ => ret None
    end in
  let* current :=
    match last with
    | Some obj =>
        let* interval := gets (objInterval obj) in
        let* interval :=
          defined "TypeError: last.interval is null" interval in
        ret (Some (TimeInterval.start interval))
    | None => ret current
    end in
  match current with
  | Some date =>
      run (fun st => with_clock (Clock_set_currentTime date (clock st)) st)
  | None => ret tt
  end ;;
  match last with
  | Some obj => let* owner := gets (objPilot obj) in Pilot_change owner
  | None => ret tt
  end.

(** The colors of [app.js]. *)
Definition initialColors : list string :=
  ["#3498db"; "#F1C40F"; "#E67E22"; "#2ecc71"; "#27AE60"; "#16A085";
   "#1ABC9C"; "#3498DB"; "#8E44AD"; "#9B59B6"; "#E74C3C"; "#C0392B";
   "#F39C12"; "#D35400"]%string.

(** The state when the script starts, at the date [now]: the clock of a
    new viewer starts now, stops a day later and does not run. *)
Definition startState (now : Time) : State :=
  mkState [] [] None None None None
    (Clock.mk now now (now + JulianDate.SECONDS_PER_DAY) 1 false)
    ∅ ∅ ∅ 0 initialColors [].

(** The part of [initialize()] that sets the state: the "any" pilot, whose
    name is the empty string, and the playback rate. *)
Definition initialize : M unit :=
  let* any := Pilot_ensure EmptyString in
  run (with_stateAny (Some any)) ;;
  run (with_statePilot (Some any)) ;;
  run (fun st => with_clock (Clock_set_multiplier DEFAULT_RATE (clock st)) st).

(** The calls of a loop [for (...) await load(item)]. *)
Fixpoint forEach {A B : Type} (f : A -> M B) (items : list A) : M unit :=
  match items with
  | [] => ret tt
  | item :: rest => f item ;; forEach f rest
  end.

(** [load(folder)], given what the files of the folder hold: the parsed
    flights with their file names, and the videos with the duration their
    media report. *)
Definition load (fromIso8601 : string -> option Q)
    (flights : list (IgcData.t * string))
    (videos : list (VideoData.t * option Q)) : M unit :=
  forEach (fun f => Flight_load (fst f) (snd f)) flights ;;
  forEach (fun v => Video_load fromIso8601 (snd v) (fst v)) videos ;;
  (* Switch to the first named pilot *)
  let* named :=
    gets (fun st =>
            head (filter (fun e => negb (String.eqb (fst e) EmptyString))
                    (ownProperties (pilots st)))) in
  match named with
  | Some (_, pilot) => Pilot_change (Some pilot)
  | None => ret tt
  end ;;
  loaded None.

(** ** Keyboard *)

(** A method of a flight called on [obj]. *)
Definition asFlight (obj : Payload) : M nat :=
  match obj with
  | FlightRef id => ret id
  | VideoRef _ => throw "TypeError: not a function"
  end.

(** The [keypress] listener on the Delete key (key code 127). *)
Definition keypressDelete : M unit :=
  let* video := gets currentVideo in
  let* flight := gets currentFlight in
  match video, flight with
  | Some video, _ =>
      changeVideo None ;;
      let* id := asVideo video in
      Video_destroy id
  | None, Some flight =>
      changeFlight None ;;
      let* id := asFlight flight in
      Flight_destroy id
  | None, None => ret tt
  end.

(** *** Seeking with the arrow keys *)

Definition JUMP_SECONDS : Q := 10.

(** [JUMP_SECONDS * (left ? -1 : 1) * Math.abs(viewer.clock.multiplier)]. *)
Definition seekSeconds (left : bool) (c : Clock.t) : Q :=
  JUMP_SECONDS * (if left then -1 else 1) * Qabs (Clock.multiplier c).

(** [!jump.dayNumber]: no decision has been reached on where to go. *)
Definition undecided (jump : Time) : bool :=
  (JulianDate.dayNumber jump =? 0)%Z.

(** The boundary epsilon matching: returns the value of [index] after it.
    An index that is not negative comes from [indexOf] or from a defined
    [get] and is an index of the array, so the [None] branches of the first
    [match] is not reached. *)
Definition seekMatch (left : bool) (all : Collection) (current : Time)
    (index : Z) : Z :=
  let index :=
    if (0 <=? index)%Z then
      match TimeIntervalCollection.get all index with
      | Some interval =>
          if left && JulianDate.equalsEpsilon current
                       (TimeInterval.start interval) (Some 1)
          then Z.lnot index
          else if negb left && JulianDate.equalsEpsilon current
                                 (TimeInterval.stop interval) None
          then Z.lnot (index + 1)
          else index
      | None => index
      end
    else index in
  if (index <? 0)%Z then
    if left then
      match TimeIntervalCollection.get all (Z.lnot index - 1) with
      | Some interval =>
          if JulianDate.equalsEpsilon current (TimeInterval.stop interval)
               (Some 1)
          then (Z.lnot index - 1)%Z else index
      | None => index
      end
    else
      match TimeIntervalCollection.get all (Z.lnot index) with
      | Some interval =>
          if JulianDate.equalsEpsilon current (TimeInterval.start interval)
               (Some 1)
          then Z.lnot index else index
      | None => index
      end
  else index.

(** The decision inside an interval ([index >= 0]): returns [jump]. *)
Definition seekInside (left ctrl : bool) (all : Collection) (c : Clock.t)
    (index : Z) (jump : Time) : Time :=
  let current := Clock.currentTime c in
  if (0 <=? index)%Z then
    match TimeIntervalCollection.get all index with
    | None => jump
    | Some interval =>
        (* We're at the start of the first interval *)
        if (index =? 0)%Z && ctrl && left
           && JulianDate.equalsEpsilon current (TimeInterval.start interval)
                (Some 1)
        then Clock.startTime c
        (* We're at the end of the very last interval *)
        else if (index =? TimeIntervalCollection.length all)%Z && ctrl
                && negb left
                && JulianDate.equalsEpsilon current
                     (TimeInterval.stop interval) None
        then
          (* ctrl && index == state.intervals.length < 1 *)
          if ctrl
             && (index =? (if (TimeIntervalCollection.length all <? 1)%Z
                           then 1 else 0))%Z
          then Clock.stopTime c else jump
        (* Jump to the start of the interval *)
        else if ctrl && left then TimeInterval.start interval
        (* Jump to the stop of the interval *)
        else if ctrl && negb left then TimeInterval.stop interval
        (* Plain Arrow key *)
        else if negb ctrl then
          let jump := JulianDate.addSeconds current (seekSeconds left c) in
          (* Jumping out of this interval, fall through to code below *)
          if negb (TimeIntervalCollection.indexOf all jump =? index)%Z
          then JulianDate.zero else jump
        else jump
    end
  else jump.

(** The decision outside of an interval, taken when none was reached. *)
Definition seekOutside (left ctrl : bool) (all : Collection) (c : Clock.t)
    (index : Z) (jump : Time) : Time :=
  if undecided jump then
    (* Not in an interval. Ctrl jumps to the previous *)
    if ctrl && left then
      match TimeIntervalCollection.get all (Z.lnot index - 1) with
      | Some interval => TimeInterval.stop interval
      | None => Clock.startTime c
      end
    (* Ctrl outside of a video jumping forwards *)
    else if ctrl && negb left then
      match TimeIntervalCollection.get all (Z.lnot index) with
      | Some interval => TimeInterval.start interval
      | None => Clock.stopTime c
      end
    (* And the standard jump outside of an interval *)
    else JulianDate.addSeconds (Clock.currentTime c) (seekSeconds left c)
  else jump.

(** "Again, if we're still in an interval, then jump to edge". *)
Definition seekEdge (left : bool) (all : Collection) (index : Z) (jump : Time)
  : Time :=
  if undecided jump then
    if (0 <=? index)%Z then
      match TimeIntervalCollection.get all index with
      | Some interval =>
          if left then TimeInterval.start interval
          else TimeInterval.stop interval
      | None => jump
      end
    else jump
  else jump.

(** The index the handler works with after the epsilon matching. *)
Definition seekIndex (left : bool) (all : Collection) (c : Clock.t) : Z :=
  seekMatch left all (Clock.currentTime c)
    (TimeIntervalCollection.indexOf all (Clock.currentTime c)).

(** The date the handler decides to go to. *)
Definition seekTarget (left ctrl : bool) (all : Collection) (c : Clock.t)
  : Time :=
  let index := seekIndex left all c in
  let jump := seekInside left ctrl all c index JulianDate.zero in
  let jump := seekOutside left ctrl all c index jump in
  seekEdge left all index jump.

(** "See if we need to expand": the clock with its bound moved, and
    whether it was. *)
Definition seekExpand (left : bool) (jump : Time) (c : Clock.t)
  : Clock.t * bool :=
  if left then
    if JulianDate.lessThan jump (Clock.startTime c)
    then (Clock_set_startTime jump c, true) else (c, false)
  else
    if JulianDate.greaterThan jump (Clock.stopTime c)
    then (Clock_set_stopTime jump c, true) else (c, false).

(** The handling of the Left ([left = true]) or Right arrow key, with or
    without Ctrl, when [state.intervals] is not empty. *)
Definition seek (left ctrl : bool) (st : State) : State :=
  let jump := seekTarget left ctrl (intervals st) (clock st) in
  (* By now we should have reached a decision on where to go *)
  let st := assert (negb (undecided jump)) "jump.dayNumber" st in
  let '(c, expanded) := seekExpand left jump (clock st) in
  (* One shouldn't be able to expand with Ctrl *)
  let st := assert (negb expanded || negb ctrl) "!expanded || !ctrl" st in
  (* Actually do the jump here *)
  with_clock (Clock_set_currentTime jump c) st.

(** The [keydown] listener. *)
Definition keydown (keyCode : Z) (ctrlKey : bool) : M unit :=
  if (keyCode =? 33)%Z || (keyCode =? 34)%Z then
    let* pilot :=
      gets (fun st => statePilot st ≫= fun a => pilotHeap st !! a) in
    let* pilot := defined "TypeError: state.pilot is null" pilot in
    Pilot_change (if (keyCode =? 33)%Z then Pilot.prev pilot
                  else Pilot.next pilot) ;;
    raiseTick
  else if (keyCode =? 37)%Z || (keyCode =? 39)%Z then
    let* all := gets intervals in
    match all with
    | [] => ret tt
    | _ :: _ => run (seek (keyCode =? 37)%Z ctrlKey) ;; raiseTick
    end
  else raiseTick.

(** ** Sample inputs *)


(** The date [seconds] seconds into the Julian day [day]. *)
Definition dateAt (day : Z) (seconds : Q) : Time :=
  inject_Z day * JulianDate.SECONDS_PER_DAY + seconds.

(** The timeline of the seek scenario: the intervals [10,20) and [30,40)
    of a day, whatever objects they are and whatever they carry. *)
Definition scenarioIntervals (day : Z) (o1 o2 : nat) (d1 d2 : option Payload)
  : Collection :=
  [TimeInterval.mk o1 (dateAt day 10) (dateAt day 20) d1;
   TimeInterval.mk o2 (dateAt day 30) (dateAt day 40) d2].

(** A clock bounded by [0, 50] of that day. *)
Definition scenarioClock (day : Z) (current multiplier : Q) (animate : bool)
  : Clock.t :=
  Clock.mk (dateAt day current) (dateAt day 0) (dateAt day 50) multiplier
    animate.

(** Both edges of the interval lie within the bounds of the clock. *)
Definition withinBounds (c : Clock.t) (i : TimeInterval.t) : Prop :=
  (Clock.startTime c <= TimeInterval.start i
   /\ TimeInterval.start i <= Clock.stopTime c) /\
  (Clock.startTime c <= TimeInterval.stop i
   /\ TimeInterval.stop i <= Clock.stopTime c).

(** A flight of ten seconds by the pilot Stef, recorded a hundred days
    before the page is opened. *)
Definition openedAt : Time := dateAt 2460100 0.

Definition pastFlight : IgcData.t :=
  IgcData.mk "Stef"
    [ {| position := Cartesian3.mk 1 2 3; time := dateAt 2460000 10 |};
      {| position := Cartesian3.mk 1 2 4; time := dateAt 2460000 20 |} ].

(** The state while [load] is still waiting for its second file: the
    script has started, the first flight is loaded, [loaded] has not run. *)
Definition loadingState : State :=
  stateOf (Flight_load pastFlight "flight.igc"
             (stateOf (initialize (startState openedAt)))).

(** ** Invariants of the list of pilots *)




(** Every value of [state.pilots] is a pilot. *)
Definition registered (st : State) : Prop :=
  forall name a, In (name, a) (pilots st) -> is_Some (pilotHeap st !! a).


(** ** What an interval collection holds *)





(** ** The rate of a video *)




(** Appends the entries to the console, in order. *)
Definition reportAll (entries : list LogEntry) (st : State) : State :=
  fold_left (fun s e => report e s) entries st.


(** ** The resolver over a sequence of ticks *)


(** The videos of [heap] are in [heap'], as ready as they were. *)
Definition keepsVideos (heap heap' : gmap nat Video.t) : Prop :=
  forall id v, heap !! id = Some v ->
    exists v', heap' !! id = Some v' /\
               (is_Some (Video.element v) -> is_Some (Video.element v')) /\
               (is_Some (Video.interval v) -> is_Some (Video.interval v')).






(** What a tick may change besides the console and the active flight and
    video. *)
Definition tickStep (st st' : State) : Prop :=
  pilots st' = pilots st /\ intervals st' = intervals st /\
  statePilot st' = statePilot st /\ stateAny st' = stateAny st /\
  pilotHeap st' = pilotHeap st /\ flightHeap st' = flightHeap st /\
  Clock.currentTime (clock st') = Clock.currentTime (clock st) /\
  keepsVideos (videoHeap st) (videoHeap st').



(** The clock reaches the date [t] and ticks. *)
Definition tickAt (t : Time) (st : State) : State :=
  stateOf (raiseTick (with_clock (Clock_set_currentTime t (clock st)) st)).





(** ** The timeline across a removal *)

(** The span of an interval object: what [set_data] leaves. *)
Definition span (i : TimeInterval.t) : nat * Time * Time :=
  (TimeInterval.oid i, TimeInterval.start i, TimeInterval.stop i).

(** The intervals of the timeline, without their payloads. *)
Definition timeline (st : State) : list (nat * Time * Time) :=
  map span (intervals st).

(** The call leaves the timeline as it is, whether it returns or throws. *)
Definition keepsTimeline {A : Type} (m : M A) : Prop :=
  forall st, timeline (stateOf (m st)) = timeline st.

(** A session: Stef's flight from 10 to 40 and a clip of ten seconds taken
    during it, at 20, loaded from the folder of the page. *)
Definition longFlight : IgcData.t :=
  IgcData.mk "Stef"
    [ {| position := Cartesian3.mk 1 2 3; time := dateAt 2460000 10 |};
      {| position := Cartesian3.mk 1 2 4; time := dateAt 2460000 40 |} ].

Definition clipDuringFlight : VideoData.t :=
  VideoData.mk "clip.mp4" "Stef" (dateAt 2460000 20) (JsNumber 10)
    JsUndefined JsUndefined JsUndefined JsUndefined.

Definition sessionState : State :=
  stateOf (load (fun _ => None) [(longFlight, "flight.igc"%string)]
             [(clipDuringFlight, None)]
             (stateOf (initialize (startState openedAt)))).

(** * Properties *)

(** ** Comparisons of numbers *)

Lemma Qltb_lt (x y : Q) : Qltb x y = true <-> x < y.
Proof.
  unfold Qltb. rewrite negb_true_iff.
  split; intro H.
  - apply Qnot_le_lt. intro Hle. apply Qle_bool_iff in Hle. congruence.
  - destruct (Qle_bool y x) eqn:E; [|reflexivity].
    apply Qle_bool_iff in E. exfalso. apply (Qlt_not_le _ _ H E).
Qed.

Lemma Qltb_ge (x y : Q) : Qltb x y = false <-> y <= x.
Proof.
  unfold Qltb. rewrite negb_false_iff. apply Qle_bool_iff.
Qed.

Lemma Qle_bool_gt (x y : Q) : Qle_bool x y = false <-> y < x.
Proof.
  rewrite <- Qltb_lt. unfold Qltb. rewrite negb_true_iff. reflexivity.
Qed.


(** ** Trajectory smoother *)

Section Smoother.

Variable p : Cartesian3.t.










End Smoother.



(** ** Media synchroniser *)


(** ** Seeking *)

(** *** Day numbers *)

Lemma Qfloor_unique (x : Q) (n : Z) :
  inject_Z n <= x -> x < inject_Z (n + 1) -> Qfloor x = n.
Proof.
  intros Hlo Hhi.
  pose proof (Qfloor_le x) as H1. pose proof (Qlt_floor x) as H2.
  assert (inject_Z n < inject_Z (Qfloor x + 1)) as A by lra.
  assert (inject_Z (Qfloor x) < inject_Z (n + 1)) as B by lra.
  rewrite <- Zlt_Qlt in A, B. lia.
Qed.

Lemma dayNumber_dateAt (day : Z) (x s : Q) :
  x == dateAt day s -> 0 <= s -> s < 86400 -> JulianDate.dayNumber x = day.
Proof.
  intros Hx Hlo Hhi.
  unfold JulianDate.dayNumber, dateAt, JulianDate.SECONDS_PER_DAY in *.
  apply Qfloor_unique.
  - apply Qle_shift_div_l; [reflexivity|]. lra.
  - apply Qlt_shift_div_r; [reflexivity|]. rewrite inject_Z_plus.
    change (inject_Z 1) with 1. lra.
Qed.

(** A date within a day other than day 0 counts as a decision. *)
Lemma undecided_dateAt (day : Z) (x s : Q) :
  day <> 0%Z -> x == dateAt day s -> 0 <= s -> s < 86400 ->
  undecided x = false.
Proof.
  intros Hday Hx Hlo Hhi. unfold undecided.
  rewrite (dayNumber_dateAt day x s Hx Hlo Hhi). now apply Z.eqb_neq.
Qed.

Lemma undecided_zero : undecided JulianDate.zero = true.
Proof. reflexivity. Qed.

(** *** Deciding the comparisons of a run *)

Lemma Qabs_gt_cases (x e : Q) : e < Qabs x -> x < - e \/ e < x.
Proof.
  intro H. destruct (Qlt_le_dec x 0) as [Hx|Hx].
  - left. rewrite (Qabs_neg x) in H by lra. lra.
  - right. rewrite (Qabs_pos x) in H by lra. lra.
Qed.

Lemma Qeq_bool_false (x y : Q) : Qeq_bool x y = false -> ~ x == y.
Proof. intros H E. apply Qeq_bool_iff in E. congruence. Qed.

(** Turns a boolean comparison into the fact it states. *)
Ltac q_norm H :=
  first
    [ apply Qle_bool_iff in H
    | apply Qle_bool_gt in H
    | apply Qeq_bool_iff in H
    | apply Qeq_bool_false in H ];
  try (apply Qabs_Qle_condition in H);
  try (apply Qabs_gt_cases in H; destruct H as [H|H]).

(** Splits on the next comparison of the goal; the impossible side goes. *)
Ltac q_case :=
  match goal with
  | |- context [Qle_bool ?a ?b] =>
      let E := fresh "E" in
      destruct (Qle_bool a b) eqn:E; q_norm E; try (exfalso; lra)
  | |- context [Qeq_bool ?a ?b] =>
      let E := fresh "E" in
      destruct (Qeq_bool a b) eqn:E; q_norm E; try (exfalso; lra)
  end.

(** Evaluates the program around the comparisons of numbers. *)
Ltac q_eval :=
  cbv -[Qplus Qmult Qminus Qopp Qdiv Qinv Qle_bool Qeq_bool Qabs inject_Z
        Qfloor JulianDate.dayNumber undecided Qeq Qle Qlt].

Ltac q_run := q_eval; repeat (q_case; q_eval).

(** The date the handler commits is the one it decided on. *)
Lemma seek_currentTime (left ctrl : bool) (st : State) :
  Clock.currentTime (clock (seek left ctrl st))
  = seekTarget left ctrl (intervals st) (clock st).
Proof.
  unfold seek. set (jump := seekTarget _ _ _ _).
  unfold seekExpand, assert.
  repeat match goal with
         | |- context [if ?b then _ else _] => destruct b
         end; reflexivity.
Qed.

(** *** The scenario of the specification *)

Section SeekScenario.

Variable day : Z.
Hypothesis Hday : day <> 0%Z.
Variables (o1 o2 : nat) (d1 d2 : option Payload).
Variables (multiplier : Q) (animate : bool).

Let all : Collection := scenarioIntervals day o1 o2 d1 d2.

Lemma scenario_indexOf_gap (s : Q) :
  20 <= s -> s < 30 ->
  TimeIntervalCollection.indexOf all (dateAt day s) = (-2)%Z.
Proof. intros Hlo Hhi. q_run. reflexivity. Qed.

Lemma scenario_indexOf_first (s : Q) :
  10 <= s -> s < 20 ->
  TimeIntervalCollection.indexOf all (dateAt day s) = 0%Z.
Proof. intros Hlo Hhi. q_run; reflexivity. Qed.

Lemma scenario_seekMatch_gap (s : Q) :
  21 < s -> s < 29 ->
  seekMatch false all (dateAt day s) (-2) = (-2)%Z.
Proof. intros Hlo Hhi. q_run. reflexivity. Qed.

Lemma scenario_seekMatch_first (s : Q) :
  10 <= s -> s < 20 ->
  seekMatch false all (dateAt day s) 0 = 0%Z.
Proof. intros Hlo Hhi. q_run. reflexivity. Qed.

Lemma scenario_target_snap :
  seekTarget false true all (scenarioClock day 25 multiplier animate)
  = dateAt day 30.
Proof.
  unfold seekTarget, seekIndex.
  cbn [scenarioClock Clock.currentTime].
  unfold all. rewrite scenario_indexOf_gap by lra.
  rewrite scenario_seekMatch_gap by lra.
  change (seekInside false true _ _ (-2) JulianDate.zero) with JulianDate.zero.
  change (seekOutside false true _ _ (-2) JulianDate.zero) with (dateAt day 30).
  unfold seekEdge.
  rewrite (undecided_dateAt day (dateAt day 30) 30 Hday) by (reflexivity || lra).
  reflexivity.
Qed.

Lemma scenario_target_step :
  Qabs multiplier == 1 ->
  seekTarget false false all (scenarioClock day 15 multiplier animate)
  == dateAt day 25.
Proof.
  intro Hrate.
  unfold seekTarget, seekIndex.
  cbn [scenarioClock Clock.currentTime].
  unfold all. rewrite scenario_indexOf_first by lra.
  rewrite scenario_seekMatch_first by lra.
  set (c := scenarioClock day 15 multiplier animate).
  assert (Hsec : seekSeconds false c == 10).
  { unfold seekSeconds, JUMP_SECONDS, c. cbn [Clock.multiplier]. rewrite Hrate. reflexivity. }
  assert (Hin : seekInside false false (scenarioIntervals day o1 o2 d1 d2) c 0 JulianDate.zero = JulianDate.zero).
  { unfold seekInside.
    cbn [Clock.currentTime c Z.leb Z.compare TimeIntervalCollection.get scenarioIntervals].
    change (TimeIntervalCollection.get _ 0) with (Some (TimeInterval.mk o1 (dateAt day 10) (dateAt day 20) d1)).
    cbn [Z.eqb andb negb].
    change (0 =? TimeIntervalCollection.length _)%Z with false.
    cbn [andb].
    set (jump := JulianDate.addSeconds _ _).
    assert (Hj : TimeIntervalCollection.indexOf (scenarioIntervals day o1 o2 d1 d2) jump = (-2)%Z).
    { unfold jump, JulianDate.addSeconds. revert Hsec. generalize (seekSeconds false c). intros s Hs.
      q_run. reflexivity. }
    rewrite Hj. reflexivity. }
  rewrite Hin.
  unfold seekOutside. rewrite undecided_zero. cbn [andb negb].
  unfold seekEdge.
  assert (Hjump : JulianDate.addSeconds (Clock.currentTime c) (seekSeconds false c)
                  == dateAt day 25).
  { unfold JulianDate.addSeconds. rewrite Hsec. unfold c, dateAt.
    cbn [scenarioClock Clock.currentTime dateAt]. unfold dateAt. ring. }
  rewrite (undecided_dateAt day _ 25 Hday Hjump) by lra.
  exact Hjump.
Qed.

(** C3. On the timeline holding exactly the intervals [10,20) and [30,40)
    of a day, with the clock bounded by [0,50]: seeking forward with Ctrl
    from 25 commits the clock time 30, and seeking forward without Ctrl, by
    [JUMP_SECONDS] = 10 at a rate of magnitude 1, from 15 commits the clock
    time 25. *)
Theorem seek_scenario (st : State) :
  Qabs multiplier == 1 ->
  let from current :=
    with_clock (scenarioClock day current multiplier animate)
      (with_intervals (scenarioIntervals day o1 o2 d1 d2) st) in
  Clock.currentTime (clock (seek false true (from 25))) == dateAt day 30 /\
  Clock.currentTime (clock (seek false false (from 15))) == dateAt day 25.
Proof.
  intros Hrate from. unfold from. rewrite !seek_currentTime.
  cbn [clock intervals with_clock with_intervals].
  split.
  - fold all. rewrite scenario_target_snap. reflexivity.
  - apply scenario_target_step. exact Hrate.
Qed.

End SeekScenario.

Lemma seek_scenario_witness :
  let day := 2460000%Z in
  let from current :=
    with_clock (scenarioClock day current 1 true)
      (with_intervals
         (scenarioIntervals day 0 1 (Some (FlightRef 0)) (Some (VideoRef 0)))
         (startState 0)) in
  day <> 0%Z /\ Qabs 1 == 1 /\
  Clock.currentTime (clock (seek false true (from 25))) == dateAt day 30 /\
  Clock.currentTime (clock (seek false false (from 15))) == dateAt day 25.
Proof.
  intros day from.
  assert (Hday : day <> 0%Z) by (unfold day; lia).
  assert (Hrate : Qabs 1 == 1) by reflexivity.
  split; [exact Hday|]. split; [exact Hrate|].
  exact (seek_scenario day Hday 0 1 (Some (FlightRef 0)) (Some (VideoRef 0))
           1 true (startState 0) Hrate).
Defined.


(** *** Seeking with Ctrl and the bounds of the clock *)

Lemma get_In (all : Collection) (index : Z) (i : TimeInterval.t) :
  TimeIntervalCollection.get all index = Some i -> In i all.
Proof.
  unfold TimeIntervalCollection.get. destruct (index <? 0)%Z; [discriminate|].
  intro H. apply list_elem_of_In. eapply list_elem_of_lookup_2. exact H.
Qed.

(** With Ctrl the handler goes to the bound of the clock in its direction or
    to an edge of an interval of the timeline. *)
Lemma seekTarget_snap (left : bool) (all : Collection) (c : Clock.t) :
  let target := seekTarget left true all c in
  (if left then target = Clock.startTime c else target = Clock.stopTime c) \/
  exists i, In i all /\
            (target = TimeInterval.start i \/ target = TimeInterval.stop i).
Proof.
  cbv zeta. unfold seekTarget. generalize (seekIndex left all c). intro index.
  unfold seekEdge, seekOutside, seekInside.
  destruct left; cbn [andb negb]; rewrite ?andb_false_r, ?andb_true_r;
  repeat (match goal with
          | |- context [match TimeIntervalCollection.get all ?x with _ => _ end] =>
              let E := fresh "G" in
              destruct (TimeIntervalCollection.get all x) eqn:E;
              [apply get_In in E|]
          | |- context [if ?b then _ else _] => destruct b eqn:?
          end; cbn [andb negb]; rewrite ?andb_false_r, ?andb_true_r);
  try (left; reflexivity);
  try match goal with
      | H : In ?i all |- _ =>
          right; exists i; split; [exact H|];
          ((left; reflexivity) || (right; reflexivity))
      end;
  try match goal with
      | H : undecided JulianDate.zero = false |- _ =>
          vm_compute in H; discriminate H
      end.
Qed.

(** Where the bounds of the clock enclose the intervals of the timeline, as
    [loaded] leaves them, a seek with Ctrl commits a date within the bounds
    and moves neither of them. *)
Lemma seek_snap_keeps_bounds (left : bool) (st : State) :
  Clock.startTime (clock st) <= Clock.stopTime (clock st) ->
  Forall (withinBounds (clock st)) (intervals st) ->
  let st' := seek left true st in
  (Clock.startTime (clock st) <= Clock.currentTime (clock st') /\
   Clock.currentTime (clock st') <= Clock.stopTime (clock st)) /\
  Clock.startTime (clock st') = Clock.startTime (clock st) /\
  Clock.stopTime (clock st') = Clock.stopTime (clock st) /\
  snd (seekExpand left (seekTarget left true (intervals st) (clock st)) (clock st)) = false.
Proof.
  intros Hbounds Hall st'.
  assert (Htarget :
    Clock.startTime (clock st) <= seekTarget left true (intervals st) (clock st) /\
    seekTarget left true (intervals st) (clock st) <= Clock.stopTime (clock st)).
  { destruct (seekTarget_snap left (intervals st) (clock st)) as [H|(i & Hi & H)].
    - destruct left; rewrite H; split; lra.
    - rewrite Forall_forall in Hall. apply list_elem_of_In, Hall in Hi.
      destruct Hi as ((? & ?) & (? & ?)).
      destruct H as [H|H]; rewrite H; split; assumption. }
  subst st'. unfold seek.
  set (target := seekTarget left true (intervals st) (clock st)) in *.
  assert (Hexp : seekExpand left target
                   (clock (assert (negb (undecided target)) "jump.dayNumber" st))
                 = (clock st, false)).
  { replace (clock (assert (negb (undecided target)) "jump.dayNumber" st))
      with (clock st) by (unfold assert; destruct (negb _); reflexivity).
    unfold seekExpand, JulianDate.lessThan, JulianDate.greaterThan.
    destruct left.
    - rewrite (proj2 (Qltb_ge target (Clock.startTime (clock st)))) by tauto. reflexivity.
    - rewrite (proj2 (Qltb_ge (Clock.stopTime (clock st)) target)) by tauto. reflexivity. }
  rewrite Hexp. cbn [negb orb assert].
  replace (seekExpand left target (clock st)) with (clock st, false).
  - cbn [clock with_clock Clock_set_currentTime Clock.currentTime Clock.startTime Clock.stopTime snd].
    repeat split; tauto.
  - symmetry. 
    replace (clock (assert (negb (undecided target)) "jump.dayNumber" st))
      with (clock st) in Hexp by (unfold assert; destruct (negb _); reflexivity).
    exact Hexp.
Qed.


(** C4. A seek with Ctrl can move a bound of the clock: while the files
    are still loading, with one flight of the past on the timeline and the
    clock of the viewer still bounded by the day the page was opened,
    Ctrl+Left commits the stop of the flight, before the start bound, moves
    the start bound there, and the assertion that Ctrl does not expand
    fails. *)
Theorem seek_snap_expands_while_loading :
  let st := loadingState in
  let st' := seek true true st in
  Clock.currentTime (clock st') < Clock.startTime (clock st) /\
  Clock.startTime (clock st') == Clock.currentTime (clock st') /\
  console st = [] /\
  console st' = [AssertFailed "!expanded || !ctrl"].
Proof.
  vm_compute. repeat split; congruence.
Qed.

(** *** The epsilon at the stop of an interval *)

(** An index the search returns is the index of an interval that starts
    at the date. *)
Lemma binarySearch_found (c : Collection) (date : Time) (i : Z) :
  (0 <= i)%Z ->
  (0 <= TimeIntervalCollection.binarySearch c date i)%Z ->
  (i <= TimeIntervalCollection.binarySearch c date i)%Z /\
  exists x,
    c !! Z.to_nat (TimeIntervalCollection.binarySearch c date i - i) = Some x /\
    TimeInterval.start x == date.
Proof.
  revert i. induction c as [|x rest IH]; intros i Hi;
    cbn [TimeIntervalCollection.binarySearch].
  - unfold Z.lnot. lia.
  - destruct (Qeq_bool (TimeInterval.start x) date) eqn:Heq.
    + intros _. split; [lia|]. rewrite Z.sub_diag. exists x.
      split; [reflexivity|]. now apply Qeq_bool_iff.
    + destruct (Qltb date (TimeInterval.start x)).
      * unfold Z.lnot. lia.
      * intro Hr. destruct (IH (i + 1)%Z ltac:(lia) Hr) as (Hle & y & Hy & Hstart).
        split; [lia|]. exists y. split; [|exact Hstart].
        replace (Z.to_nat (TimeIntervalCollection.binarySearch rest date (i + 1) - i))
          with (S (Z.to_nat (TimeIntervalCollection.binarySearch rest date (i + 1) - (i + 1))))
          by lia.
        exact Hy.
Qed.

(** A date that [indexOf] finds lies in the interval at the index. *)
Lemma indexOf_found (c : Collection) (date : Time) :
  (0 <= TimeIntervalCollection.indexOf c date)%Z ->
  exists x,
    TimeIntervalCollection.get c (TimeIntervalCollection.indexOf c date) = Some x /\
    (TimeInterval.start x == date \/ TimeInterval.contains x date = true).
Proof.
  unfold TimeIntervalCollection.indexOf.
  destruct (0 <=? TimeIntervalCollection.binarySearch c date 0)%Z eqn:Hfound.
  - intros _. apply Z.leb_le in Hfound.
    destruct (binarySearch_found c date 0 ltac:(lia) Hfound) as (_ & x & Hx & Hstart).
    rewrite Z.sub_0_r in Hx. exists x. split; [|now left].
    unfold TimeIntervalCollection.get.
    replace (_ <? 0)%Z with false by (symmetry; apply Z.ltb_ge; lia). exact Hx.
  - set (index := Z.lnot (TimeIntervalCollection.binarySearch c date 0)).
    destruct (TimeIntervalCollection.get c (index - 1)) as [before|] eqn:Hget.
    + destruct (TimeInterval.contains before date) eqn:Hin.
      * intros _. exists before. split; [exact Hget|now right].
      * apply Z.leb_gt in Hfound. subst index. rewrite Z.lnot_involutive. lia.
    + apply Z.leb_gt in Hfound. subst index. rewrite Z.lnot_involutive. lia.
Qed.

(** Inside an interval the stop is still ahead, so the comparison of the
    date with the stop, made without an epsilon, fails: seeking forward, the
    epsilon matching never turns a position inside an interval into "after
    the interval". *)
Lemma seekMatch_forward_inside (all : Collection) (current : Time) :
  Forall (fun i => TimeInterval.start i < TimeInterval.stop i) all ->
  (0 <= TimeIntervalCollection.indexOf all current)%Z ->
  seekMatch false all current (TimeIntervalCollection.indexOf all current)
  = TimeIntervalCollection.indexOf all current.
Proof.
  intros Hall Hfound.
  destruct (indexOf_found all current Hfound) as (x & Hget & Hin).
  unfold seekMatch.
  replace (0 <=? _)%Z with true by (symmetry; apply Z.leb_le; exact Hfound).
  rewrite Hget. cbn [andb negb].
  assert (Hahead : current < TimeInterval.stop x).
  { rewrite Forall_forall in Hall.
    pose proof (Hall x (proj2 (list_elem_of_In _ _) (get_In _ _ _ Hget))) as Hne.
    destruct Hin as [Hstart|Hin].
    - rewrite <- Hstart. exact Hne.
    - unfold TimeInterval.contains in Hin. apply andb_true_iff in Hin as [_ Hin].
      now apply Qltb_lt in Hin. }
  assert (Hno : JulianDate.equalsEpsilon current (TimeInterval.stop x) None = false).
  { unfold JulianDate.equalsEpsilon, JulianDate.secondsDifference. cbn [default].
    apply Qle_bool_gt. rewrite Qabs_neg by lra. lra. }
  rewrite Hno.
  replace (_ <? 0)%Z with false by (symmetry; apply Z.ltb_ge; exact Hfound).
  reflexivity.
Qed.

(** C5. Seeking forward from half a second before the stop of the interval
    [10,20), the position is not turned into "after the interval": the index
    stays 0 and Ctrl+Right commits the stop 20 of that interval, not the
    start 30 of the next.  Seeking backward from half a second after its
    start, the position is turned into "before the interval" (index [~0])
    and Ctrl+Left commits the start bound of the clock. *)
Theorem seek_forward_stop_epsilon :
  let day := 2460000%Z in
  let all :=
    scenarioIntervals day 0 1 (Some (FlightRef 0)) (Some (FlightRef 1)) in
  let nearStop := scenarioClock day (39 # 2) 1 false in
  let nearStart := scenarioClock day (21 # 2) 1 false in
  JulianDate.equalsEpsilon (dateAt day (39 # 2)) (dateAt day 20) (Some 1)
    = true /\
  seekIndex false all nearStop = 0%Z /\
  seekTarget false true all nearStop == dateAt day 20 /\
  seekIndex true all nearStart = Z.lnot 0 /\
  seekTarget true true all nearStart == dateAt day 0.
Proof.
  vm_compute. repeat split; congruence.
Qed.

(** ** The linked list of pilots *)























(** ** Adding to an interval index *)





Lemma new_fst a b d f : fst (TimeInterval.new a b d f) = TimeInterval.mk f a b d.
Proof. reflexivity. Qed.








(** ** The rate of a video *)



Lemma reportAll_console entries st :
  console (reportAll entries st) = console st ++ entries.
Proof.
  revert st. induction entries as [|e rest IH]; intro st; cbn.
  - now rewrite app_nil_r.
  - rewrite IH. cbn. now rewrite <- app_assoc.
Qed.







(** ** Active-entity resolver *)

Lemma keepsVideos_refl heap : keepsVideos heap heap.
Proof. intros id v H. exists v. tauto. Qed.

















Lemma tickStep_refl st : tickStep st st.
Proof. repeat split. apply keepsVideos_refl. Qed.













(** ** Removing a flight or a video *)

Lemma keeps_bind {A B : Type} (m : M A) (k : A -> M B) :
  keepsTimeline m -> (forall a, keepsTimeline (k a)) -> keepsTimeline (bind m k).
Proof.
  intros Hm Hk st. unfold bind. specialize (Hm st).
  destruct (m st) as [a st1|e st1]; cbn [stateOf] in *.
  - rewrite Hk. exact Hm.
  - exact Hm.
Qed.

Lemma keeps_ret {A : Type} (a : A) : keepsTimeline (ret a).
Proof. intro st. reflexivity. Qed.

Lemma keeps_throw {A : Type} (e : string) : keepsTimeline (throw e : M A).
Proof. intro st. reflexivity. Qed.

Lemma keeps_gets {A : Type} (f : State -> A) : keepsTimeline (gets f).
Proof. intro st. reflexivity. Qed.

Lemma keeps_defined {A : Type} (what : string) (o : option A) :
  keepsTimeline (defined what o).
Proof. destruct o; [apply keeps_ret|apply keeps_throw]. Qed.

Lemma keeps_run (f : State -> State) :
  (forall st, timeline (f st) = timeline st) -> keepsTimeline (run f).
Proof. intros Hf st. apply Hf. Qed.

Lemma timeline_assert b what st : timeline (assert b what st) = timeline st.
Proof. destruct b; reflexivity. Qed.

Lemma set_data_span target value i :
  span (TimeInterval.set_data target value i) = span i.
Proof. unfold TimeInterval.set_data. destruct (_ =? _)%nat; reflexivity. Qed.

Lemma timeline_setIntervalData target value st :
  timeline (setIntervalData target value st) = timeline st.
Proof.
  unfold timeline. cbn. rewrite map_map. apply map_ext. intro. apply set_data_span.
Qed.

Lemma timeline_setObjPilot obj v st : timeline (setObjPilot obj v st) = timeline st.
Proof. destruct obj; reflexivity. Qed.

Lemma timeline_setObjInterval obj v st : timeline (setObjInterval obj v st) = timeline st.
Proof. destruct obj; reflexivity. Qed.

Ltac keeps :=
  repeat first
    [ apply keeps_bind; [|intro]
    | apply keeps_ret | apply keeps_throw | apply keeps_gets | apply keeps_defined
    | apply keeps_run; intro;
      first [ apply timeline_assert | apply timeline_setIntervalData
            | apply timeline_setObjPilot | apply timeline_setObjInterval
            | reflexivity ]
    | match goal with
      | |- keepsTimeline (let '(_, _) := ?p in _) => destruct p
      | |- keepsTimeline (if ?b then _ else _) => destruct b
      | |- keepsTimeline (match ?o with _ => _ end) => destruct o
      end ].

Lemma Pilot_remove_keeps (this : nat) (obj : Payload) :
  keepsTimeline (Pilot_remove this obj).
Proof. unfold Pilot_remove. keeps. Qed.

Lemma Video_stop_keeps (this : nat) : keepsTimeline (Video_stop this).
Proof. unfold Video_stop. keeps. Qed.

(** Destroying a flight or a video removes nothing from [state.intervals]. *)
Lemma Flight_destroy_keeps (this : nat) : keepsTimeline (Flight_destroy this).
Proof. unfold Flight_destroy. keeps; apply Pilot_remove_keeps. Qed.

Lemma Video_destroy_keeps (this : nat) : keepsTimeline (Video_destroy this).
Proof.
  unfold Video_destroy.
  apply keeps_bind; [apply Video_stop_keeps|intro]. keeps; apply Pilot_remove_keeps.
Qed.


Lemma Video_sync_keeps (this : nat) : keepsTimeline (Video_sync this).
Proof. unfold Video_sync. keeps. Qed.

Lemma Video_start_keeps (this : nat) : keepsTimeline (Video_start this).
Proof. unfold Video_start. keeps; apply Video_sync_keeps. Qed.

Lemma asVideo_keeps (obj : Payload) : keepsTimeline (asVideo obj).
Proof. unfold asVideo. keeps. Qed.

Lemma asFlight_keeps (obj : Payload) : keepsTimeline (asFlight obj).
Proof. unfold asFlight. keeps. Qed.

Lemma changeVideo_keeps (video : option Payload) :
  keepsTimeline (changeVideo video).
Proof.
  unfold changeVideo.
  keeps;
    first [ apply Video_stop_keeps | apply Video_start_keeps
          | apply asVideo_keeps ].
Qed.

Lemma changeFlight_keeps (flight : option Payload) :
  keepsTimeline (changeFlight flight).
Proof. intro st. reflexivity. Qed.

(** Whatever the state, the Delete key takes nothing out of
    [state.intervals]: every interval object stays, with its start and its
    stop. *)
Lemma keypressDelete_keeps : keepsTimeline keypressDelete.
Proof.
  unfold keypressDelete.
  keeps;
    first [ apply changeVideo_keeps | apply changeFlight_keeps
          | apply Video_destroy_keeps | apply Flight_destroy_keeps
          | apply asVideo_keeps | apply asFlight_keeps ].
Qed.

(** C2. In the session of a flight from 10 to 40 with a clip from 20 to 30
    over it, [state.intervals] holds the flight on [10,20) and [30,40) around
    the clip.  With the flight active at 15, the Delete key destroys it: it
    leaves the index of its pilot and loses its interval, and yet
    [state.intervals] still holds the two intervals whose payload is that
    flight. *)
Theorem delete_leaves_stale_intervals :
  let st := tickAt (dateAt 2460000 15) sessionState in
  let out := keypressDelete st in
  currentFlight st = Some (FlightRef 0) /\
  returned out = true /\
  (Pilot.flights <$> pilotHeap (stateOf out) !! 1%nat) = Some [] /\
  (Flight.interval <$> flightHeap (stateOf out) !! 0%nat) = Some None /\
  map TimeInterval.data (intervals (stateOf out))
  = [Some (FlightRef 0); Some (VideoRef 0); Some (FlightRef 0)].
Proof.
  vm_compute. repeat split; reflexivity.
Qed.
